(** * The HTTP facade of the course-materials RAG system (backend/app.py)

    A shallow embedding of the request handlers of [backend/app.py] and the
    properties of its natural-language specification.

    Conventions.
    - A Python [str] is a [string]; one [ascii] stands for one code point
      (the embedding covers the code points below 256), so [len] is
      [String.length] and [s[:n]] keeps the first [n] characters.
    - A [dict] is an association list in insertion order with pairwise
      distinct keys ([dict_wf]); [sorted] is stable, so insertion order
      decides between equal sort keys.
    - [raise] is the left injection of [result]; the collaborators that
      [app.py] imports ([rag_system], its [session_manager]) are the
      variables of [Section Facade]. *)

From Stdlib Require Import List String Ascii ZArith Lia Bool Arith Sorted.
From Stdlib Require Import Permutation.
Import ListNotations.

Local Open Scope string_scope.
Local Open Scope Z_scope.

(** ** Exceptions and results *)

(** The failure taxonomy of the core (rag_system and what it calls). *)
Inductive error_kind : Type :=
| ValidationError
| NotFound
| BackendUnavailable
| IndexInconsistency
| OtherError.

(** The exceptions (subclasses of [Exception]) that reach a handler of
    [app.py].  [detail] is what an [HTTPException] carries: a literal, or
    [str(e)] of the exception that was caught. *)
Inductive py_exn : Type :=
| HTTPException (status_code : Z) (detail : detail)
| IndexError
| ValueError (literal : string)
| KeyError (key : string)
| CoreError (kind : error_kind) (message : string)
with detail : Type :=
| Text (s : string)
| Str (e : py_exn).

Definition result (A : Type) : Type := (py_exn + A)%type.

Definition ok {A : Type} (a : A) : result A := inr a.
Definition raise {A : Type} (e : py_exn) : result A := inl e.

Definition bind {A B : Type} (r : result A) (k : A -> result B) : result B :=
  match r with
  | inl e => inl e
  | inr a => k a
  end.

Notation "x <- r ;; k" := (bind r (fun x => k))
  (at level 61, r at next level, right associativity).

Definition status_of {A : Type} (r : result A) : option Z :=
  match r with
  | inl (HTTPException code _) => Some code
  | _ => None
  end.

(** [try: body  except Exception as e: raise HTTPException(500, str(e))].
    [HTTPException] is itself a subclass of [Exception], so it is caught
    and wrapped like every other exception. *)
Definition except_500 {A : Type} (body : result A) : result A :=
  match body with
  | inl e => raise (HTTPException 500 (Str e))
  | inr a => ok a
  end.

(** [try: body  except HTTPException: raise
              except Exception as e: raise HTTPException(500, str(e))]. *)
Definition except_http_500 {A : Type} (body : result A) : result A :=
  match body with
  | inl (HTTPException code d) => raise (HTTPException code d)
  | inl e => raise (HTTPException 500 (Str e))
  | inr a => ok a
  end.

(** ** Strings *)

(** [s[:n]] *)
Fixpoint slice_to (n : nat) (s : string) : string :=
  match n, s with
  | O, _ => EmptyString
  | S _, EmptyString => EmptyString
  | S n', String c s' => String c (slice_to n' s')
  end.

(** [s.split(sep)] for a one-character separator. *)
Fixpoint split (sep : ascii) (s : string) : list string :=
  match s with
  | EmptyString => [EmptyString]
  | String c s' =>
      if Ascii.eqb c sep then EmptyString :: split sep s'
      else match split sep s' with
           | [] => [String c EmptyString]
           | field :: fields => String c field :: fields
           end
  end.

(** [xs[i]] on a list: [IndexError] out of range. *)
Definition index {A : Type} (xs : list A) (i : nat) : result A :=
  match nth_error xs i with
  | Some x => ok x
  | None => raise IndexError
  end.

(** Whitespace that [int] strips: the C-locale spaces, and among the code
    points above 127 the Unicode spaces U+0085 and U+00A0. *)
Definition is_int_space (c : ascii) : bool :=
  let n := nat_of_ascii c in
  (((9 <=? n) && (n <=? 13)) || (n =? 32) || (n =? 133) || (n =? 160))%nat.

Definition digit_of (c : ascii) : option Z :=
  let n := nat_of_ascii c in
  if ((48 <=? n) && (n <=? 57))%nat then Some (Z.of_nat n - 48) else None.

Fixpoint lstrip (s : string) : string :=
  match s with
  | String c s' => if is_int_space c then lstrip s' else s
  | EmptyString => EmptyString
  end.

Fixpoint all_space (s : string) : bool :=
  match s with
  | EmptyString => true
  | String c s' => is_int_space c && all_space s'
  end.

(** Digits with single underscores between them, up to trailing
    whitespace; [after_digit] says that the previous character was a
    digit.  Returns the value and the number of digits read. *)
Fixpoint digits (acc : Z) (count : nat) (after_digit : bool) (s : string)
  : option (Z * nat) :=
  match s with
  | EmptyString => if after_digit then Some (acc, count) else None
  | String c s' =>
      match digit_of c with
      | Some d => digits (10 * acc + d) (S count) true s'
      | None =>
          if Ascii.eqb c "_"%char then
            if after_digit then digits acc count false s' else None
          else if after_digit && all_space s then Some (acc, count)
          else None
      end
  end.

(** [sys.get_int_max_str_digits()] *)
Definition int_max_str_digits : nat := 4300.

(** [int(s)] for a [str] in base 10: [ValueError] unless [s] is an
    optionally signed decimal literal of at most 4300 digits, surrounded
    by optional whitespace. *)
Definition py_int (s : string) : result Z :=
  let body := lstrip s in
  let '(negative, rest) :=
    match body with
    | String "-"%char r => (true, r)
    | String "+"%char r => (false, r)
    | _ => (false, body)
    end in
  match digits 0 0 false rest with
  | Some (v, count) =>
      if (int_max_str_digits <? count)%nat then raise (ValueError s)
      else ok (if negative then - v else v)
  | None => raise (ValueError s)
  end.

(** ** Dictionaries and sorting *)

Definition dict (V : Type) : Type := list (string * V).

Definition dict_wf {V : Type} (d : dict V) : Prop := NoDup (map fst d).

(** [d.keys()], in insertion order. *)
Definition dict_keys {V : Type} (d : dict V) : list string := map fst d.

Fixpoint dict_lookup {V : Type} (d : dict V) (k : string) : option V :=
  match d with
  | [] => None
  | (k', v) :: d' => if String.eqb k k' then Some v else dict_lookup d' k
  end.

(** [k in d] *)
Definition dict_contains {V : Type} (d : dict V) (k : string) : bool :=
  match dict_lookup d k with
  | Some _ => true
  | None => false
  end.

(** [d[k]] *)
Definition dict_getitem {V : Type} (d : dict V) (k : string) : result V :=
  match dict_lookup d k with
  | Some v => ok v
  | None => raise (KeyError k)
  end.

(** [d.get(k, default)] *)
Definition dict_get {V : Type} (d : dict V) (k : string) (default : V) : V :=
  match dict_lookup d k with
  | Some v => v
  | None => default
  end.

(** The sort keys are computed first, left to right; the first exception
    ends the call. *)
Fixpoint keyed {A : Type} (key : A -> result Z) (xs : list A)
  : result (list (Z * A)) :=
  match xs with
  | [] => ok []
  | x :: xs' =>
      k <- key x ;;
      rest <- keyed key xs' ;;
      ok ((k, x) :: rest)
  end.

(** Insertion in front of a list sorted by descending key: the new
    element comes from further left in the input, so it goes before the
    elements of equal key. *)
Fixpoint insert_desc {A : Type} (p : Z * A) (sorted : list (Z * A))
  : list (Z * A) :=
  match sorted with
  | [] => [p]
  | q :: rest =>
      if fst p <? fst q then q :: insert_desc p rest else p :: q :: rest
  end.

Definition sort_desc {A : Type} (l : list (Z * A)) : list (Z * A) :=
  fold_right insert_desc [] l.

(** [sorted(xs, key=key, reverse=True)]: stable, descending. *)
Definition sorted_reverse {A : Type} (key : A -> result Z) (xs : list A)
  : result (list A) :=
  kxs <- keyed key xs ;;
  ok (map snd (sort_desc kxs)).

(** [for x in xs: state = body(state, x)], ended by the first exception. *)
Fixpoint for_each {S A : Type} (body : S -> A -> result S) (xs : list A)
  (state : S) : result S :=
  match xs with
  | [] => ok state
  | x :: xs' =>
      state' <- body state x ;;
      for_each body xs' state'
  end.

(** ** The session store as the handlers read it *)

Record Message : Type := mkMessage {
  role : string;
  content : string
}.

(** [rag_system.session_manager.sessions] *)
Definition sessions_t : Type := dict (list Message).

(** [models.ChatHistoryItem] *)
Record ChatHistoryItem : Type := mkChatHistoryItem {
  session_id : string;
  title : string;
  message_count : Z
}.

(** ** GET /api/chat-history *)

(** [lambda x: int(x.split('_')[1])] *)
Definition session_number (x : string) : result Z :=
  field <- index (split "_" x) 1 ;;
  py_int field.

(** The inner loop: the content of the first message whose role is
    ["user"], [None] when there is none. *)
Fixpoint first_user_msg (messages : list Message) : option string :=
  match messages with
  | [] => None
  | msg :: rest =>
      if String.eqb (role msg) "user" then Some (content msg)
      else first_user_msg rest
  end.

(** Truthiness of [Optional[str]]: neither [None] nor empty. *)
Definition truthy (s : option string) : bool :=
  match s with
  | Some (String _ _) => true
  | _ => false
  end.

Definition title_of (first_user : string) : string :=
  let title := slice_to 50 first_user in
  if (50 <? String.length first_user)%nat then title ++ "..." else title.

(** One turn of the loop over [sorted_session_ids[:10]]. *)
Definition history_step (all_sessions : sessions_t)
  (chats : list ChatHistoryItem) (sid : string)
  : result (list ChatHistoryItem) :=
  messages <- dict_getitem all_sessions sid ;;
  match messages with
  | [] => ok chats
  | _ :: _ =>
      match first_user_msg messages with
      | Some first_user =>
          if truthy (Some first_user) then
            ok (chats ++
                [mkChatHistoryItem sid (title_of first_user)
                   (Z.of_nat (List.length messages))])%list
          else ok chats
      | None => ok chats
      end
  end.

Definition sorted_session_ids (all_sessions : sessions_t)
  : result (list string) :=
  sorted_reverse session_number (dict_keys all_sessions).

Definition get_chat_history (all_sessions : sessions_t)
  : result (list ChatHistoryItem) :=
  except_500
    (ids <- sorted_session_ids all_sessions ;;
     for_each (history_step all_sessions) (firstn 10 ids) []).

(** ** GET /api/chat/{session_id} *)

Record Conversation : Type := mkConversation {
  conv_session_id : string;
  conv_messages : list (string * string)
}.

Definition get_chat_conversation (all_sessions : sessions_t) (sid : string)
  : result Conversation :=
  except_http_500
    (if negb (dict_contains all_sessions sid) then
       raise (HTTPException 404 (Text "Chat not found"))
     else
       let messages := dict_get all_sessions sid [] in
       ok (mkConversation sid
             (map (fun msg => (role msg, content msg)) messages))).

Definition msg (r c : string) : Message := mkMessage r c.

Definition sample_sessions : sessions_t :=
  [ ("session_1", [msg "user" "hello"; msg "assistant" "hi"]);
    ("session_2", []);
    ("session_10", [msg "assistant" "only me"]);
    ("session_3", [msg "user" "What is the difference between a chunk and an embedding?"]) ].

(** ** Handlers that call into the RAG system *)

(** Computations over a state [S] that may raise. *)
Definition M (S A : Type) : Type := S -> result A * S.

Definition retM {S A : Type} (a : A) : M S A := fun st => (ok a, st).

Definition bindM {S A B : Type} (m : M S A) (k : A -> M S B) : M S B :=
  fun st =>
    match m st with
    | (inl e, st') => (inl e, st')
    | (inr a, st') => k a st'
    end.

Notation "x <~ m ;; k" := (bindM m (fun x => k))
  (at level 61, m at next level, right associativity).

(** [try: m  except Exception as e: handler(e)]; what [m] did to the state
    before it raised stays done. *)
Definition try_except {S A : Type} (m : M S A) (handler : py_exn -> M S A)
  : M S A :=
  fun st =>
    match m st with
    | (inl e, st') => handler e st'
    | (inr a, st') => (ok a, st')
    end.

Definition raiseM {S A : Type} (e : py_exn) : M S A := fun st => (raise e, st).

(** A piece of an f-string, and a printed line. *)
Inductive fragment : Type :=
| Lit (s : string)
| FmtInt (n : Z)
| FmtExn (e : py_exn).

Definition line : Type := list fragment.

(** [QueryRequest] and [QueryResponse] of [app.py]; [request_session_id]
    is the [Optional[str]] field [session_id]. *)
Record QueryRequest : Type := mkQueryRequest {
  request_query : string;
  request_session_id : option string
}.

Record QueryResponse (Citation : Type) : Type := mkQueryResponse {
  answer : string;
  sources : list Citation;
  response_session_id : string
}.
Arguments mkQueryResponse {Citation} _ _ _.
Arguments answer {Citation} _.
Arguments sources {Citation} _.
Arguments response_session_id {Citation} _.

Section Facade.

(** The state of [rag_system] and [models.SourceCitation]. *)
Variable rag_state : Type.
Variable SourceCitation : Type.

(** [rag_system.session_manager.create_session()] *)
Variable create_session : M rag_state string.

(** [rag_system.query(query, session_id)] *)
Variable rag_query :
  string -> string -> M rag_state (string * list SourceCitation).

(** [rag_system.add_course_folder(path, clear_existing=...)] *)
Variable add_course_folder : string -> bool -> M rag_state (Z * Z).

(** Lines 62-64: the session the query runs in. *)
Definition session_for (request : QueryRequest) : M rag_state string :=
  if truthy (request_session_id request) then
    match request_session_id request with
    | Some sid => retM sid
    | None => create_session
    end
  else create_session.

(** POST /api/query *)
Definition query_documents (request : QueryRequest)
  : M rag_state (QueryResponse SourceCitation) :=
  try_except
    (sid <~ session_for request ;;
     reply <~ rag_query (request_query request) sid ;;
     retM (mkQueryResponse (fst reply) (snd reply) sid))
    (fun e => raiseM (HTTPException 500 (Str e))).

(** The process as the startup handler sees it: the RAG system and what
    has been printed so far. *)
Definition process : Type := (rag_state * list line)%type.

Definition print (l : line) : M process unit :=
  fun p => (ok tt, (fst p, (snd p ++ [l])%list)).

Definition on_rag {A : Type} (m : M rag_state A) : M process A :=
  fun p => let '(r, st') := m (fst p) in (r, (st', snd p)).

Definition docs_path : string := "../docs".

(** [startup_event]; [docs_exist] is [os.path.exists(docs_path)]. *)
Definition startup_event (docs_exist : bool) : M process unit :=
  if docs_exist then
    _ <~ print [Lit "Loading initial documents..."] ;;
    try_except
      (loaded <~ on_rag (add_course_folder docs_path false) ;;
       print [Lit "Loaded "; FmtInt (fst loaded); Lit " courses with ";
              FmtInt (snd loaded); Lit " chunks"])
      (fun e => print [Lit "Error loading documents: "; FmtExn e])
  else retM tt.

End Facade.

Arguments session_for {rag_state} _ _.
Arguments query_documents {rag_state SourceCitation} _ _ _.
Arguments startup_event {rag_state} _ _.
Arguments print {rag_state} _.
Arguments on_rag {rag_state A} _.

(** ** The core behind the facade

    [rag_system.py] and [session_manager.py] are not part of the sources
    at hand; this module follows sections 4.4 and 4.5 of the
    specification. *)
Module Core.

(** Modelled from the spec: the Session Store's state ([session_manager]
    is missing): the per-session message lists and the counter that
    identifiers are derived from. *)
Record store : Type := mkStore {
  sessions : sessions_t;
  session_counter : nat
}.

(** [d[k] = v]: in place for a known key, at the end for a new one. *)
Fixpoint dict_set {V : Type} (d : dict V) (k : string) (v : V) : dict V :=
  match d with
  | [] => [(k, v)]
  | (k', v') :: d' =>
      if String.eqb k k' then (k', v) :: d' else (k', v') :: dict_set d' k v
  end.

Fixpoint decimal (fuel n : nat) (acc : string) : string :=
  match fuel with
  | O => acc
  | S fuel' =>
      let d := String (ascii_of_nat (48 + n mod 10)) acc in
      if (n <? 10)%nat then d else decimal fuel' (n / 10) d
  end.

(** The identifier of the [n]-th session: a prefix and the counter. *)
Definition session_name (n : nat) : string :=
  "session_" ++ decimal (S n) n "".

(** The first number from [n] on whose identifier is not a key of [d];
    [fuel] bounds the numbers tried before the last one is taken. *)
Fixpoint next_free (fuel n : nat) (d : sessions_t) : nat :=
  match fuel with
  | O => n
  | S fuel' =>
      if dict_contains d (session_name n) then next_free fuel' (S n) d else n
  end.

(** Modelled from the spec: [create_session() -> session_id]
    ([session_manager.create_session] is missing): allocates a fresh,
    never-reused identifier, with no content yet.  The counter only
    grows, and a number whose identifier a caller already brought into
    the store through [append] is passed over: among as many numbers as
    the store has sessions, plus one, some identifier is free. *)
Definition create_session : M store string :=
  fun st =>
    let n :=
      next_free (List.length (sessions st)) (S (session_counter st))
        (sessions st) in
    let sid := session_name n in
    (ok sid, mkStore (dict_set (sessions st) sid []) n).

(** Modelled from the spec: [append(session_id, role, content)]
    ([session_manager]'s append is missing): appends a Message and
    creates an unknown session on the way. *)
Definition append (st : store) (sid r c : string) : store :=
  mkStore
    (dict_set (sessions st) sid
       (dict_get (sessions st) sid [] ++ [mkMessage r c])%list)
    (session_counter st).

(** Modelled from the spec: [history(session_id, max_messages)]
    ([session_manager]'s history read is missing): the most recent
    [max_messages] messages, in chronological order. *)
Definition history (st : store) (sid : string) (max_messages : nat)
  : list Message :=
  let messages := dict_get (sessions st) sid [] in
  skipn (List.length messages - max_messages) messages.

Definition message_count (st : store) (sid : string) : nat :=
  List.length (dict_get (sessions st) sid []).

Record Chunk : Type := mkChunk {
  course_title : string;
  section_label : string;
  ordinal : nat;
  text : string
}.

Record SourceCitation : Type := mkSourceCitation {
  cited_course : string;
  cited_section : string;
  rank : nat
}.

Record GenerationRequest : Type := mkGenerationRequest {
  system_instruction : string;
  request_history : list Message;
  request_chunks : list Chunk;
  new_query : string
}.

Definition max_history : nat := 5.
Definition top_k : nat := 5.
Definition instruction : string :=
  "Answer from the course materials provided.".

Fixpoint citations (n : nat) (chunks : list Chunk) : list SourceCitation :=
  match chunks with
  | [] => []
  | c :: rest =>
      mkSourceCitation (course_title c) (section_label c) n
      :: citations (S n) rest
  end.

Section Synthesizer.

(** The Retriever and the generation backend. *)
Variable search : string -> nat -> result (list Chunk).
Variable generate : GenerationRequest -> result string.

Definition build_request (st : store) (query_text sid : string)
  (chunks : list Chunk) : GenerationRequest :=
  mkGenerationRequest instruction (history st sid max_history) chunks
    query_text.

(** Modelled from the spec: [answer(query_text, session_id)]
    ([rag_system.query] is missing), steps 1 to 6 of section 4.5:
    history, retrieval, request, generation, citations, and only then
    the two appends. *)
Definition answer_query (query_text sid : string)
  : M store (string * list SourceCitation) :=
  fun st =>
    match search query_text top_k with
    | inl e => (raise e, st)
    | inr chunks =>
        match generate (build_request st query_text sid chunks) with
        | inl e => (raise e, st)
        | inr answer_text =>
            (ok (answer_text, citations 1 chunks),
             append (append st sid "user" query_text)
               sid "assistant" answer_text)
        end
    end.

End Synthesizer.

End Core.

(** ** A concrete RAG system to run the handlers on *)

Definition empty_store : Core.store := Core.mkStore [] 0.

Definition no_chunks (q : string) (k : nat) : result (list Core.Chunk) :=
  ok [].

Definition echo_backend (r : Core.GenerationRequest) : result string :=
  ok ("You asked: " ++ Core.new_query r).

Definition failing_backend (r : Core.GenerationRequest) : result string :=
  raise (CoreError BackendUnavailable "generation backend unreachable").

(** A core whose query path raises the given failure. *)
Definition raising_query (e : py_exn) (q sid : string)
  : M Core.store (string * list Core.SourceCitation) :=
  raiseM e.

Definition no_folder (path : string) (clear_existing : bool)
  : M Core.store (Z * Z) :=
  raiseM (CoreError OtherError "cannot read folder").

Definition two_courses (path : string) (clear_existing : bool)
  : M Core.store (Z * Z) :=
  retM (2, 17).

Definition echo_query := Core.answer_query no_chunks echo_backend.

(** ** GET /api/courses *)

(** [CourseStats] of [app.py]. *)
Record CourseStats : Type := mkCourseStats {
  total_courses : Z;
  course_titles : list string
}.

Definition liftR {S A : Type} (r : result A) : M S A := fun st => (r, st).

Section CourseStatistics.

(** The state of [rag_system] and the values of the dictionary that
    [get_course_analytics] returns. *)
Variable rag_state : Type.
Variable py_value : Type.

(** [rag_system.get_course_analytics()] *)
Variable get_course_analytics : M rag_state (dict py_value).

(** [CourseStats(total_courses=..., course_titles=...)]: the constructor
    validates its two arguments and raises when they do not fit. *)
Variable new_CourseStats : py_value -> py_value -> result CourseStats.

(** The two subscripts are evaluated left to right, before the call. *)
Definition get_course_stats : M rag_state CourseStats :=
  try_except
    (analytics <~ get_course_analytics ;;
     total <~ liftR (dict_getitem analytics "total_courses") ;;
     titles <~ liftR (dict_getitem analytics "course_titles") ;;
     liftR (new_CourseStats total titles))
    (fun e => raiseM (HTTPException 500 (Str e))).

End CourseStatistics.

Arguments get_course_stats {rag_state py_value} _ _ _.

(** * Properties *)

(** ** The definitions at work *)

Example py_int_plain : py_int "12" = ok 12.
Proof. reflexivity. Qed.

Example py_int_spaces : py_int "  -7 " = ok (-7).
Proof. reflexivity. Qed.

Example py_int_underscore : py_int "1_0" = ok 10.
Proof. reflexivity. Qed.

Example py_int_empty : py_int "" = raise (ValueError "").
Proof. reflexivity. Qed.

Example py_int_sign_space : py_int "- 1" = raise (ValueError "- 1").
Proof. reflexivity. Qed.

Example py_int_word : py_int "abc" = raise (ValueError "abc").
Proof. reflexivity. Qed.

Example split_fields : split "_" "a__b" = ["a"; ""; "b"].
Proof. reflexivity. Qed.

Example split_none : split "_" "abc" = ["abc"].
Proof. reflexivity. Qed.

Example history_sample :
  get_chat_history sample_sessions =
  ok [ mkChatHistoryItem "session_3"
         "What is the difference between a chunk and an embe..." 1;
       mkChatHistoryItem "session_1" "hello" 2 ].
Proof. reflexivity. Qed.

Example history_bad_id :
  get_chat_history [("chat", [])] = raise (HTTPException 500 (Str IndexError)).
Proof. reflexivity. Qed.

Example conversation_sample :
  get_chat_conversation sample_sessions "session_1" =
  ok (mkConversation "session_1" [("user", "hello"); ("assistant", "hi")]).
Proof. reflexivity. Qed.

(** ** Results *)

Lemma bind_ok {A B : Type} (r : result A) (k : A -> result B) (b : B) :
  bind r k = ok b -> exists a, r = ok a /\ k a = ok b.
Proof.
  destruct r as [e | a]; simpl; intros H.
  - discriminate H.
  - exists a. split; [reflexivity | exact H].
Qed.

Lemma except_500_ok {A : Type} (body : result A) (a : A) :
  except_500 body = ok a -> body = ok a.
Proof.
  destruct body as [e | a']; simpl; intros H.
  - discriminate H.
  - exact H.
Qed.

(** ** Stable descending sort *)

Section Sorting.

Context {A : Type}.

Definition key_desc (p q : Z * A) : Prop := fst q <= fst p.

Lemma insert_desc_In (p x : Z * A) (l : list (Z * A)) :
  In x (insert_desc p l) <-> x = p \/ In x l.
Proof.
  induction l as [| q rest IH]; simpl.
  - intuition.
  - destruct (fst p <? fst q); simpl; rewrite ?IH; intuition.
Qed.

Lemma insert_desc_length (p : Z * A) (l : list (Z * A)) :
  List.length (insert_desc p l) = S (List.length l).
Proof.
  induction l as [| q rest IH]; simpl; [reflexivity |].
  destruct (fst p <? fst q); simpl; [rewrite IH |]; reflexivity.
Qed.

Lemma insert_desc_sorted (p : Z * A) (l : list (Z * A)) :
  StronglySorted key_desc l -> StronglySorted key_desc (insert_desc p l).
Proof.
  induction l as [| q rest IH]; simpl; intros Hs.
  - constructor; [constructor | constructor].
  - inversion Hs as [| ? ? Hrest Hq]; subst.
    destruct (fst p <? fst q) eqn:Hlt.
    + constructor; [apply IH; exact Hrest |].
      apply Forall_forall. intros x Hx.
      apply insert_desc_In in Hx. destruct Hx as [-> | Hx].
      * apply Z.ltb_lt in Hlt. unfold key_desc. lia.
      * rewrite Forall_forall in Hq. apply Hq. exact Hx.
    + apply Z.ltb_ge in Hlt.
      constructor; [exact Hs |].
      constructor; [exact Hlt |].
      rewrite Forall_forall in Hq. apply Forall_forall. intros x Hx.
      specialize (Hq x Hx). unfold key_desc in *. lia.
Qed.

Lemma sort_desc_In (x : Z * A) (l : list (Z * A)) :
  In x (sort_desc l) <-> In x l.
Proof.
  induction l as [| p rest IH]; simpl; [reflexivity |].
  rewrite insert_desc_In, IH. intuition.
Qed.

Lemma sort_desc_length (l : list (Z * A)) :
  List.length (sort_desc l) = List.length l.
Proof.
  induction l as [| p rest IH]; simpl; [reflexivity |].
  rewrite insert_desc_length, IH. reflexivity.
Qed.

Lemma sort_desc_sorted (l : list (Z * A)) :
  StronglySorted key_desc (sort_desc l).
Proof.
  induction l as [| p rest IH]; simpl.
  - constructor.
  - apply insert_desc_sorted. exact IH.
Qed.

Variable key : A -> result Z.

Lemma keyed_spec (xs : list A) (kxs : list (Z * A)) :
  keyed key xs = ok kxs ->
  map snd kxs = xs /\ Forall (fun p => key (snd p) = ok (fst p)) kxs.
Proof.
  revert kxs. induction xs as [| x rest IH]; simpl; intros kxs H.
  - injection H as <-. split; constructor.
  - apply bind_ok in H. destruct H as (k & Hk & H).
    apply bind_ok in H. destruct H as (tail & Htail & H).
    injection H as <-. destruct (IH _ Htail) as [Hmap Hall].
    simpl. split; [rewrite Hmap; reflexivity |].
    constructor; [exact Hk | exact Hall].
Qed.


(** [a] may stand before [b] in a descending order of the keys. *)
Definition before_by_key (a b : A) : Prop :=
  forall ka kb, key a = ok ka -> key b = ok kb -> kb <= ka.

Lemma sorted_reverse_spec (xs ys : list A) :
  sorted_reverse key xs = ok ys ->
  StronglySorted before_by_key ys
  /\ (forall x, In x ys <-> In x xs)
  /\ List.length ys = List.length xs
  /\ Forall (fun y => exists k, key y = ok k) ys.
Proof.
  unfold sorted_reverse. intros H.
  apply bind_ok in H. destruct H as (kxs & Hk & H). injection H as <-.
  destruct (keyed_spec _ _ Hk) as [Hmap Hall].
  assert (Hall' : Forall (fun p => key (snd p) = ok (fst p)) (sort_desc kxs)).
  { rewrite Forall_forall in *. intros p Hp. apply Hall.
    apply sort_desc_In. exact Hp. }
  repeat split.
  - pose proof (sort_desc_sorted kxs) as Hs.
    induction Hs as [| p rest Hs IH Hp]; simpl; constructor.
    + apply IH. inversion Hall'; assumption.
    + inversion Hall' as [| ? ? Hkp Hrest]; subst.
      rewrite Forall_forall in *. intros y Hy.
      apply in_map_iff in Hy. destruct Hy as (q & <- & Hq).
      intros ka kb Ha Hb. rewrite Hkp in Ha. rewrite (Hrest q Hq) in Hb.
      injection Ha as <-. injection Hb as <-. apply Hp. exact Hq.
  - intros Hx. apply in_map_iff in Hx. destruct Hx as (p & <- & Hp).
    rewrite <- Hmap. apply in_map. apply sort_desc_In. exact Hp.
  - intros Hx. rewrite <- Hmap in Hx. apply in_map_iff in Hx.
    destruct Hx as (p & <- & Hp). apply in_map. apply sort_desc_In. exact Hp.
  - rewrite length_map, sort_desc_length, <- Hmap, length_map. reflexivity.
  - apply Forall_forall. intros y Hy. apply in_map_iff in Hy.
    destruct Hy as (p & <- & Hp). rewrite Forall_forall in Hall'.
    exists (fst p). apply Hall'. exact Hp.
Qed.


End Sorting.

(** ** Lists *)

Lemma firstn_In {A : Type} (n : nat) (l : list A) (x : A) :
  In x (firstn n l) -> In x l.
Proof.
  intros H. rewrite <- (firstn_skipn n l). apply in_or_app. left. exact H.
Qed.

Lemma firstn_sorted {A : Type} (R : A -> A -> Prop) (n : nat) (l : list A) :
  StronglySorted R l -> StronglySorted R (firstn n l).
Proof.
  intros H. revert n. induction H as [| a l Hl IH Ha]; intros [| n]; simpl;
    try constructor.
  - apply IH.
  - rewrite Forall_forall in *. intros x Hx. apply Ha.
    apply (firstn_In _ _ _ Hx).
Qed.

Lemma filter_sorted {A : Type} (R : A -> A -> Prop) (f : A -> bool)
  (l : list A) :
  StronglySorted R l -> StronglySorted R (filter f l).
Proof.
  induction 1 as [| a l Hl IH Ha]; simpl; [constructor |].
  destruct (f a); [| exact IH].
  constructor; [exact IH |].
  rewrite Forall_forall in *. intros x Hx. apply Ha.
  apply filter_In in Hx. destruct Hx as [Hx _]. exact Hx.
Qed.

(** In a strongly sorted list, an element at a later position is related
    to every element at an earlier one. *)
Lemma sorted_nth {A : Type} (R : A -> A -> Prop) (l : list A) :
  StronglySorted R l ->
  forall i j a b,
    (i < j)%nat -> nth_error l i = Some a -> nth_error l j = Some b -> R a b.
Proof.
  induction 1 as [| x l Hl IH Hx]; intros i j a b Hij Hi Hj.
  - destruct i; discriminate Hi.
  - destruct j as [| j]; [lia |]. simpl in Hj.
    destruct i as [| i]; simpl in Hi.
    + injection Hi as <-. rewrite Forall_forall in Hx. apply Hx.
      apply (nth_error_In _ _ Hj).
    + apply (IH i j); [lia | exact Hi | exact Hj].
Qed.

(** ** Dictionaries *)

Lemma dict_lookup_key {V : Type} (d : dict V) (k : string) :
  In k (dict_keys d) -> exists v, dict_lookup d k = Some v.
Proof.
  induction d as [| [k' v'] rest IH]; simpl; intros H.
  - contradiction.
  - destruct (String.eqb k k') eqn:E.
    + exists v'. reflexivity.
    + destruct H as [H | H].
      * subst k'. rewrite String.eqb_refl in E. discriminate E.
      * apply IH. exact H.
Qed.

Lemma dict_lookup_In {V : Type} (d : dict V) (k : string) (v : V) :
  dict_lookup d k = Some v -> In k (dict_keys d).
Proof.
  induction d as [| [k' v'] rest IH]; simpl; intros H.
  - discriminate H.
  - destruct (String.eqb k k') eqn:E.
    + left. apply String.eqb_eq in E. symmetry. exact E.
    + right. apply IH. exact H.
Qed.

(** ** Titles *)

Lemma slice_to_short (n : nat) (s : string) :
  (String.length s <= n)%nat -> slice_to n s = s.
Proof.
  revert n. induction s as [| c s IH]; intros [| n] H; simpl in *;
    try reflexivity; try lia.
  rewrite IH; [reflexivity | lia].
Qed.

Lemma slice_to_length (n : nat) (s : string) :
  (n <= String.length s)%nat -> String.length (slice_to n s) = n.
Proof.
  revert n. induction s as [| c s IH]; intros [| n] H; simpl in *;
    try reflexivity; try lia.
  rewrite IH; [reflexivity | lia].
Qed.

Lemma slice_to_prefix (n : nat) (s : string) :
  exists rest, s = slice_to n s ++ rest.
Proof.
  revert n. induction s as [| c s IH]; intros [| n]; simpl.
  - exists "". reflexivity.
  - exists "". reflexivity.
  - exists (String c s). reflexivity.
  - destruct (IH n) as [rest Hrest]. exists rest. rewrite <- Hrest. reflexivity.
Qed.

Lemma title_of_cases (first : string) :
  title_of first =
  if (String.length first <=? 50)%nat then first
  else slice_to 50 first ++ "...".
Proof.
  unfold title_of.
  destruct (50 <? String.length first)%nat eqn:Hlong.
  - apply Nat.ltb_lt in Hlong.
    destruct (String.length first <=? 50)%nat eqn:Hshort; [| reflexivity].
    apply Nat.leb_le in Hshort. lia.
  - apply Nat.ltb_ge in Hlong.
    destruct (String.length first <=? 50)%nat eqn:Hshort.
    + apply slice_to_short. exact Hlong.
    + apply Nat.leb_gt in Hshort. lia.
Qed.

(** ** The first user message *)

Definition is_user (m : Message) : Prop := role m = "user".

(** [first] is the content of the first message of [messages] whose role
    is ["user"]. *)
Definition first_user_message (messages : list Message) (first : string)
  : Prop :=
  exists before m after,
    messages = (before ++ m :: after)%list
    /\ Forall (fun x => ~ is_user x) before
    /\ is_user m
    /\ content m = first.

Lemma first_user_msg_some (messages : list Message) (first : string) :
  first_user_msg messages = Some first -> first_user_message messages first.
Proof.
  induction messages as [| m rest IH]; simpl; intros H.
  - discriminate H.
  - destruct (String.eqb (role m) "user") eqn:E.
    + injection H as <-. exists [], m, rest.
      repeat split; [constructor | apply String.eqb_eq; exact E].
    + destruct (IH H) as (before & u & after & -> & Hb & Hu & Hc).
      exists (m :: before), u, after. repeat split; try assumption.
      constructor; [| exact Hb].
      unfold is_user. intros Hm. rewrite Hm in E. discriminate E.
Qed.

Lemma first_user_msg_none (messages : list Message) :
  Forall (fun x => ~ is_user x) messages -> first_user_msg messages = None.
Proof.
  induction 1 as [| m rest Hm _ IH]; simpl; [reflexivity |].
  destruct (String.eqb (role m) "user") eqn:E; [| exact IH].
  apply String.eqb_eq in E. contradiction.
Qed.

(** ** The chat-history listing *)

(** The entry that the loop body adds for [sid], if any. *)
Definition summary (all_sessions : sessions_t) (sid : string)
  : option ChatHistoryItem :=
  match dict_lookup all_sessions sid with
  | Some (m :: rest) =>
      match first_user_msg (m :: rest) with
      | Some (String c f) =>
          Some (mkChatHistoryItem sid (title_of (String c f))
                  (Z.of_nat (List.length (m :: rest))))
      | _ => None
      end
  | _ => None
  end.

Definition listable (all_sessions : sessions_t) (sid : string) : bool :=
  match summary all_sessions sid with
  | Some _ => true
  | None => false
  end.

Definition entries (all_sessions : sessions_t) (ids : list string)
  : list ChatHistoryItem :=
  flat_map
    (fun sid =>
       match summary all_sessions sid with
       | Some item => [item]
       | None => []
       end)
    ids.

Lemma history_step_summary (s : sessions_t) (chats : list ChatHistoryItem)
  (sid : string) :
  In sid (dict_keys s) ->
  history_step s chats sid = ok (chats ++ entries s [sid])%list.
Proof.
  intros Hin. destruct (dict_lookup_key s sid Hin) as [messages Hm].
  unfold history_step, dict_getitem, entries, summary. simpl. rewrite Hm. simpl.
  destruct messages as [| m rest]; simpl.
  - rewrite app_nil_r. reflexivity.
  - destruct (String.eqb (role m) "user").
    + destruct (content m); simpl; rewrite ?app_nil_r; reflexivity.
    + destruct (first_user_msg rest) as [[| c f] |]; simpl;
        rewrite ?app_nil_r; reflexivity.
Qed.

Lemma history_loop (s : sessions_t) (ids : list string) :
  Forall (fun sid => In sid (dict_keys s)) ids ->
  forall chats,
    for_each (history_step s) ids chats = ok (chats ++ entries s ids)%list.
Proof.
  induction 1 as [| sid rest Hsid _ IH]; intros chats; simpl.
  - rewrite app_nil_r. reflexivity.
  - rewrite (history_step_summary s chats sid Hsid). simpl.
    rewrite IH. unfold entries. simpl. rewrite app_nil_r, app_assoc.
    reflexivity.
Qed.

Lemma entries_ids (s : sessions_t) (ids : list string) :
  map session_id (entries s ids) = filter (listable s) ids.
Proof.
  induction ids as [| sid rest IH]; simpl; [reflexivity |].
  unfold listable.
  destruct (summary s sid) as [item |] eqn:E; simpl; rewrite IH.
  - f_equal. unfold summary in E.
    destruct (dict_lookup s sid) as [[| m l] |]; try discriminate E.
    destruct (first_user_msg (m :: l)) as [[| c f] |]; try discriminate E.
    injection E as <-. reflexivity.
  - reflexivity.
Qed.

Lemma entries_In (s : sessions_t) (ids : list string) (item : ChatHistoryItem) :
  In item (entries s ids) <->
  exists sid, In sid ids /\ summary s sid = Some item.
Proof.
  unfold entries. rewrite in_flat_map. split.
  - intros (sid & Hsid & Hitem). exists sid. split; [exact Hsid |].
    destruct (summary s sid) as [i |]; simpl in Hitem.
    + destruct Hitem as [-> | []]. reflexivity.
    + contradiction.
  - intros (sid & Hsid & Hsum). exists sid. split; [exact Hsid |].
    rewrite Hsum. left. reflexivity.
Qed.

(** What an entry of the listing says about its session. *)
Definition summarises (s : sessions_t) (item : ChatHistoryItem) : Prop :=
  exists messages first,
    dict_lookup s (session_id item) = Some messages
    /\ first_user_message messages first
    /\ first <> ""
    /\ title item = title_of first
    /\ message_count item = Z.of_nat (List.length messages)
    /\ 0 < message_count item.

Lemma summary_summarises (s : sessions_t) (sid : string)
  (item : ChatHistoryItem) :
  summary s sid = Some item -> session_id item = sid /\ summarises s item.
Proof.
  unfold summary. intros H.
  destruct (dict_lookup s sid) as [[| m rest] |] eqn:Hm; try discriminate H.
  destruct (first_user_msg (m :: rest)) as [[| c f] |] eqn:Hf;
    try discriminate H.
  injection H as <-. simpl. split; [reflexivity |].
  exists (m :: rest), (String c f). simpl.
  repeat split; try assumption; try reflexivity.
  - apply first_user_msg_some. exact Hf.
  - discriminate.
Qed.

Lemma sorted_ids_keys (s : sessions_t) (ids : list string) :
  sorted_session_ids s = ok ids ->
  Forall (fun sid => In sid (dict_keys s)) ids.
Proof.
  intros H. apply sorted_reverse_spec in H.
  destruct H as (_ & Hin & _). apply Forall_forall. intros x Hx.
  apply Hin. exact Hx.
Qed.

Lemma get_chat_history_ok (s : sessions_t) (chats : list ChatHistoryItem) :
  get_chat_history s = ok chats ->
  exists ids,
    sorted_session_ids s = ok ids /\ chats = entries s (firstn 10 ids).
Proof.
  unfold get_chat_history. intros H. apply except_500_ok in H.
  apply bind_ok in H. destruct H as (ids & Hids & H).
  exists ids. split; [exact Hids |].
  rewrite history_loop in H.
  - injection H as <-. reflexivity.
  - pose proof (sorted_ids_keys s ids Hids) as Hall.
    rewrite Forall_forall in *. intros x Hx. apply Hall.
    apply (firstn_In _ _ _ Hx).
Qed.

Lemma get_chat_history_of_ids (s : sessions_t) (ids : list string) :
  sorted_session_ids s = ok ids ->
  get_chat_history s = ok (entries s (firstn 10 ids)).
Proof.
  intros Hids. unfold get_chat_history. rewrite Hids. cbv [bind ok].
  rewrite history_loop; [reflexivity |].
  pose proof (sorted_ids_keys s ids Hids) as Hall.
  rewrite Forall_forall in *. intros x Hx. apply Hall.
  apply (firstn_In _ _ _ Hx).
Qed.

Lemma first_user_msg_found (messages : list Message) (first : string) :
  first_user_message messages first -> first_user_msg messages = Some first.
Proof.
  intros (before & m & after & -> & Hb & Hm & Hc).
  induction Hb as [| x before Hx _ IH]; simpl.
  - unfold is_user in Hm. rewrite Hm. simpl. rewrite Hc. reflexivity.
  - destruct (String.eqb (role x) "user") eqn:E; [| exact IH].
    apply String.eqb_eq in E. contradiction.
Qed.

(** A session that the listing can show: it has a first user message, and
    that message has some content. *)
Definition has_first_user_text (s : sessions_t) (sid : string) : Prop :=
  exists messages first,
    dict_lookup s sid = Some messages
    /\ first_user_message messages first
    /\ first <> "".

Lemma listable_iff (s : sessions_t) (sid : string) :
  listable s sid = true <-> has_first_user_text s sid.
Proof.
  unfold listable. split.
  - destruct (summary s sid) as [item |] eqn:E; [| discriminate].
    intros _. apply summary_summarises in E.
    destruct E as (<- & messages & first & Hm & Hf & Hne & _).
    exists messages, first. repeat split; assumption.
  - intros (messages & first & Hm & Hf & Hne).
    unfold summary. rewrite Hm.
    pose proof (first_user_msg_found _ _ Hf) as Hfirst.
    destruct messages as [| m rest]; [discriminate Hfirst |].
    rewrite Hfirst. destruct first; [contradiction | reflexivity].
Qed.

Lemma filter_drops {A : Type} (f : A -> bool) (l : list A) (x : A) :
  In x l -> f x = false -> (List.length (filter f l) < List.length l)%nat.
Proof.
  induction l as [| a l IH]; simpl; intros Hin Hf; [contradiction |].
  pose proof (filter_length_le f l) as Hle.
  destruct Hin as [-> | Hin].
  - rewrite Hf. lia.
  - specialize (IH Hin Hf). destruct (f a); simpl; lia.
Qed.

Lemma history_ids_sorted (s : sessions_t) (chats : list ChatHistoryItem) :
  get_chat_history s = ok chats ->
  StronglySorted (before_by_key session_number) (map session_id chats).
Proof.
  intros H. apply get_chat_history_ok in H. destruct H as (ids & Hids & ->).
  rewrite entries_ids. apply filter_sorted, firstn_sorted.
  apply sorted_reverse_spec in Hids. apply Hids.
Qed.

(** ** The claims about GET /api/chat-history *)

Definition numbered (sid : string) : Prop :=
  exists n, session_number sid = ok n.



(** One conversation, and ten later sessions that never got a message. *)
Definition crowded_sessions : sessions_t :=
  [ ("session_1", [msg "user" "What is RAG?"; msg "assistant" "Retrieval."]);
    ("session_2", []); ("session_3", []); ("session_4", []);
    ("session_5", []); ("session_6", []); ("session_7", []);
    ("session_8", []); ("session_9", []); ("session_10", []);
    ("session_11", []) ].

Ltac distinct_keys :=
  unfold dict_wf; simpl;
  repeat (constructor; [simpl; intuition discriminate |]);
  constructor.

Lemma crowded_sessions_wf : dict_wf crowded_sessions.
Proof. distinct_keys. Qed.

Lemma crowded_sessions_order :
  sorted_session_ids crowded_sessions =
  ok [ "session_11"; "session_10"; "session_9"; "session_8"; "session_7";
       "session_6"; "session_5"; "session_4"; "session_3"; "session_2";
       "session_1" ].
Proof. vm_compute. reflexivity. Qed.

Lemma crowded_sessions_listing : get_chat_history crowded_sessions = ok [].
Proof. vm_compute. reflexivity. Qed.





Lemma listed_entry (s : sessions_t) (chats : list ChatHistoryItem)
  (item : ChatHistoryItem) :
  get_chat_history s = ok chats -> In item chats -> summarises s item.
Proof.
  intros H Hitem. apply get_chat_history_ok in H.
  destruct H as (ids & _ & ->).
  apply entries_In in Hitem. destruct Hitem as (sid & _ & Hsum).
  apply summary_summarises in Hsum. apply Hsum.
Qed.

(** C2: the title of every listed session is its first user message when
    that message has at most 50 characters, and otherwise the first 50
    characters of the message followed by "...". *)
Theorem chat_history_title (s : sessions_t) (chats : list ChatHistoryItem)
  (item : ChatHistoryItem) :
  get_chat_history s = ok chats ->
  In item chats ->
  exists messages first,
    dict_lookup s (session_id item) = Some messages
    /\ first_user_message messages first
    /\ ((String.length first <= 50)%nat /\ title item = first
        \/ (50 < String.length first)%nat
           /\ exists prefix rest,
                first = prefix ++ rest
                /\ String.length prefix = 50%nat
                /\ title item = prefix ++ "...").
Proof.
  intros H Hitem.
  destruct (listed_entry s chats item H Hitem)
    as (messages & first & Hm & Hf & _ & Ht & _).
  exists messages, first. split; [exact Hm |]. split; [exact Hf |].
  rewrite Ht, title_of_cases.
  destruct (String.length first <=? 50)%nat eqn:Hlen.
  - left. apply Nat.leb_le in Hlen. split; [exact Hlen | reflexivity].
  - right. apply Nat.leb_gt in Hlen. split; [exact Hlen |].
    destruct (slice_to_prefix 50 first) as [rest Hrest].
    exists (slice_to 50 first), rest.
    split; [exact Hrest |]. split; [| reflexivity].
    apply slice_to_length. lia.
Qed.

Definition long_question_item : ChatHistoryItem :=
  mkChatHistoryItem "session_3"
    "What is the difference between a chunk and an embe..." 1.

Lemma chat_history_title_witness :
  exists messages first,
    dict_lookup sample_sessions (session_id long_question_item) = Some messages
    /\ first_user_message messages first
    /\ ((String.length first <= 50)%nat /\ title long_question_item = first
        \/ (50 < String.length first)%nat
           /\ exists prefix rest,
                first = prefix ++ rest
                /\ String.length prefix = 50%nat
                /\ title long_question_item = prefix ++ "...").
Proof.
  apply (chat_history_title sample_sessions
           [long_question_item; mkChatHistoryItem "session_1" "hello" 2]).
  - vm_compute. reflexivity.
  - simpl. left. reflexivity.
Defined.

(** C7: in the listing a session whose identifier has the larger integer
    after the first underscore stands before one with a smaller integer. *)
Theorem chat_history_descending (s : sessions_t)
  (chats : list ChatHistoryItem) (i j : nat) (a b : ChatHistoryItem)
  (na nb : Z) :
  get_chat_history s = ok chats ->
  nth_error chats i = Some a ->
  nth_error chats j = Some b ->
  session_number (session_id a) = ok na ->
  session_number (session_id b) = ok nb ->
  nb < na ->
  (i < j)%nat.
Proof.
  intros H Hi Hj Ha Hb Hlt.
  pose proof (history_ids_sorted s chats H) as Hsorted.
  destruct (Nat.lt_trichotomy i j) as [Hij | [Hij | Hij]].
  - exact Hij.
  - subst j. rewrite Hi in Hj. injection Hj as <-.
    rewrite Ha in Hb. injection Hb as <-. lia.
  - exfalso.
    assert (Hba : before_by_key session_number (session_id b) (session_id a)).
    { apply (sorted_nth _ _ Hsorted j i); [exact Hij | |].
      - rewrite nth_error_map, Hj. reflexivity.
      - rewrite nth_error_map, Hi. reflexivity. }
    specialize (Hba nb na Hb Ha). lia.
Qed.

Lemma chat_history_descending_witness :
  get_chat_history sample_sessions
  = ok [long_question_item; mkChatHistoryItem "session_1" "hello" 2]
  /\ session_number "session_3" = ok 3
  /\ session_number "session_1" = ok 1
  /\ (0 < 1)%nat.
Proof.
  assert (Hlist : get_chat_history sample_sessions
                  = ok [long_question_item;
                        mkChatHistoryItem "session_1" "hello" 2])
    by (vm_compute; reflexivity).
  assert (H3 : session_number "session_3" = ok 3) by (vm_compute; reflexivity).
  assert (H1 : session_number "session_1" = ok 1) by (vm_compute; reflexivity).
  repeat split; try assumption.
  apply (chat_history_descending sample_sessions
           [long_question_item; mkChatHistoryItem "session_1" "hello" 2]
           0 1 long_question_item (mkChatHistoryItem "session_1" "hello" 2)
           3 1 Hlist); try reflexivity; try assumption.
Defined.

(** C10: a session that has messages but none with role "user" is left
    out of the listing, and it still takes part in the ranking that the
    window of 10 is cut from: every listed session is among the first 10
    of that ranking, and when the session itself is among them fewer than
    10 sessions are listed. *)
Theorem userless_session_omitted (s : sessions_t)
  (chats : list ChatHistoryItem) (sid : string) (messages : list Message) :
  get_chat_history s = ok chats ->
  dict_lookup s sid = Some messages ->
  messages <> [] ->
  Forall (fun m => ~ is_user m) messages ->
  ~ In sid (map session_id chats)
  /\ exists ids,
       sorted_session_ids s = ok ids
       /\ In sid ids
       /\ (forall item, In item chats -> In (session_id item) (firstn 10 ids))
       /\ (In sid (firstn 10 ids) -> (List.length chats < 10)%nat).
Proof.
  intros H Hm Hne Hnouser.
  assert (Hnot : listable s sid = false).
  { unfold listable, summary. rewrite Hm.
    pose proof (first_user_msg_none messages Hnouser) as Hnone.
    destruct messages as [| m rest]; [reflexivity |].
    rewrite Hnone. reflexivity. }
  apply get_chat_history_ok in H. destruct H as (ids & Hids & ->).
  split.
  - rewrite entries_ids. intros Hin. apply filter_In in Hin.
    destruct Hin as [_ Hin]. rewrite Hnot in Hin. discriminate Hin.
  - exists ids. split; [exact Hids |]. split.
    + apply sorted_reverse_spec in Hids. destruct Hids as (_ & Hin & _).
      apply Hin. apply (dict_lookup_In s sid messages Hm).
    + split.
      * intros item Hitem.
        apply (in_map session_id) in Hitem. rewrite entries_ids in Hitem.
        apply filter_In in Hitem. apply Hitem.
      * intros Hwin.
        rewrite <- (length_map session_id), entries_ids.
        pose proof (filter_drops (listable s) _ sid Hwin Hnot) as Hdrop.
        pose proof (firstn_le_length 10 ids) as Hten. lia.
Qed.

Lemma userless_session_omitted_witness :
  ~ In "session_10"
      (map session_id
         [long_question_item; mkChatHistoryItem "session_1" "hello" 2])
  /\ exists ids,
       sorted_session_ids sample_sessions = ok ids
       /\ In "session_10" ids
       /\ (forall item,
             In item [long_question_item;
                      mkChatHistoryItem "session_1" "hello" 2] ->
             In (session_id item) (firstn 10 ids))
       /\ (In "session_10" (firstn 10 ids) ->
           (List.length [long_question_item;
                         mkChatHistoryItem "session_1" "hello" 2] < 10)%nat).
Proof.
  apply (userless_session_omitted sample_sessions _ "session_10"
           [msg "assistant" "only me"]).
  - vm_compute. reflexivity.
  - reflexivity.
  - discriminate.
  - repeat constructor. unfold is_user. simpl. discriminate.
Defined.

(** Ten sessions without a user message fill the window: the older
    conversation is not listed. *)
Definition assistant_only : list Message := [msg "assistant" "Welcome back."].

Definition userless_window : sessions_t :=
  [ ("session_1", [msg "user" "What is RAG?"; msg "assistant" "Retrieval."]);
    ("session_2", assistant_only); ("session_3", assistant_only);
    ("session_4", assistant_only); ("session_5", assistant_only);
    ("session_6", assistant_only); ("session_7", assistant_only);
    ("session_8", assistant_only); ("session_9", assistant_only);
    ("session_10", assistant_only); ("session_11", assistant_only) ].

Example userless_window_listing : get_chat_history userless_window = ok [].
Proof. vm_compute. reflexivity. Qed.

(** ** The claim about GET /api/chat/{session_id} *)

(** C3: an unknown session gives the NotFound failure (status 404); a
    known one gives its identifier and all its messages, in stored order,
    each as its role and content. *)
Theorem chat_conversation_transcript (s : sessions_t) (sid : string) :
  get_chat_conversation s sid =
  match dict_lookup s sid with
  | None => raise (HTTPException 404 (Text "Chat not found"))
  | Some messages =>
      ok (mkConversation sid (map (fun m => (role m, content m)) messages))
  end.
Proof.
  unfold get_chat_conversation, dict_contains, dict_get.
  destruct (dict_lookup s sid) as [messages |]; simpl.
  - reflexivity.
  - reflexivity.
Qed.

(** ** The claims about POST /api/query and the startup handler *)

(** [create] only hands out identifiers that are not among the [keys] of
    the state it is called in. *)
Definition allocates_fresh {S : Type} (keys : S -> list string)
  (create : M S string) : Prop :=
  forall st sid st1, create st = (ok sid, st1) -> ~ In sid (keys st).

Section FacadeProperties.

Variable rag_state : Type.
Variable SourceCitation : Type.
Variable create_session : M rag_state string.
Variable rag_query :
  string -> string -> M rag_state (string * list SourceCitation).
Variable add_course_folder : string -> bool -> M rag_state (Z * Z).

Lemma session_for_cases (request : QueryRequest) (st : rag_state) :
  session_for create_session request st =
  match request_session_id request with
  | Some (String c rest) => (ok (String c rest), st)
  | _ => create_session st
  end.
Proof.
  unfold session_for.
  destruct (request_session_id request) as [[| c rest] |]; reflexivity.
Qed.

(** The handler, run: the session is settled first, then the query; an
    exception of either step leaves as status 500, with the state as the
    step left it. *)
Lemma query_documents_run (request : QueryRequest) (st : rag_state) :
  query_documents create_session rag_query request st =
  match session_for create_session request st with
  | (inl e, st1) => (raise (HTTPException 500 (Str e)), st1)
  | (inr sid, st1) =>
      match rag_query (request_query request) sid st1 with
      | (inl e, st2) => (raise (HTTPException 500 (Str e)), st2)
      | (inr reply, st2) =>
          (ok (mkQueryResponse (fst reply) (snd reply) sid), st2)
      end
  end.
Proof.
  unfold query_documents, try_except, bindM.
  destruct (session_for create_session request st) as [[e | sid] st1];
    [reflexivity |].
  destruct (rag_query (request_query request) sid st1) as [[e | reply] st2];
    reflexivity.
Qed.

(** C4: a request without [session_id] gets its session from
    [create_session] of the session store, and every response carries the
    answer and the sources that the RAG system returned together with the
    session the query ran in: the caller's when the request names one,
    the newly allocated one otherwise.  The handler runs exactly so: it
    settles the session, with [create_session] when the request names
    none, runs the query in it, and answers with the reply and that
    session; and when [create_session] only hands out identifiers that
    the store does not hold, the identifier of such a response is one
    that the store did not hold before the request. *)
Theorem query_response_contents (request : QueryRequest) (st : rag_state) :
  (match request_session_id request with
   | None => session_for create_session request st = create_session st
   | Some "" => session_for create_session request st = create_session st
   | Some sid => session_for create_session request st = (ok sid, st)
   end)
  /\ query_documents create_session rag_query request st
     = match (match request_session_id request with
              | Some (String c rest) => (ok (String c rest), st)
              | _ => create_session st
              end) with
       | (inl e, st1) => (raise (HTTPException 500 (Str e)), st1)
       | (inr sid, st1) =>
           match rag_query (request_query request) sid st1 with
           | (inl e, st2) => (raise (HTTPException 500 (Str e)), st2)
           | (inr reply, st2) =>
               (ok (mkQueryResponse (fst reply) (snd reply) sid), st2)
           end
       end
  /\ (forall response st',
        query_documents create_session rag_query request st
        = (ok response, st') ->
        exists st1,
          session_for create_session request st
          = (ok (response_session_id response), st1)
          /\ rag_query (request_query request)
               (response_session_id response) st1
             = (ok (answer response, sources response), st'))
  /\ (forall keys : rag_state -> list string,
        allocates_fresh keys create_session ->
        forall response st',
          truthy (request_session_id request) = false ->
          query_documents create_session rag_query request st
          = (ok response, st') ->
          ~ In (response_session_id response) (keys st)).
Proof.
  split; [| split; [| split]].
  - rewrite session_for_cases.
    destruct (request_session_id request) as [[| c rest] |]; reflexivity.
  - rewrite query_documents_run, session_for_cases. reflexivity.
  - intros response st' H. rewrite query_documents_run in H.
    destruct (session_for create_session request st) as [[e | sid] st1];
      [discriminate H |].
    destruct (rag_query (request_query request) sid st1)
      as [[e | [text cited]] st2] eqn:Hq; [discriminate H |].
    injection H as <- <-. simpl. exists st1.
    split; [reflexivity | exact Hq].
  - intros keys Hfresh response st' Habsent H.
    rewrite query_documents_run, session_for_cases in H.
    assert (Hcreate :
              match request_session_id request with
              | Some (String c rest) => (ok (String c rest), st)
              | _ => create_session st
              end = create_session st).
    { destruct (request_session_id request) as [[| c rest] |];
        [reflexivity | discriminate Habsent | reflexivity]. }
    rewrite Hcreate in H.
    destruct (create_session st) as [[e | sid] st1] eqn:Hsid;
      [discriminate H |].
    destruct (rag_query (request_query request) sid st1)
      as [[e | reply] st2]; [discriminate H |].
    injection H as <- <-. simpl.
    apply (Hfresh st sid st1). exact Hsid.
Qed.

(** C9: an empty [session_id] is handled exactly like a missing one: the
    session comes from [create_session], and it is that session, not the
    empty string, that the query runs in and that the response names. *)
Theorem empty_session_id_like_absent (q : string) (st : rag_state) :
  query_documents create_session rag_query (mkQueryRequest q (Some "")) st
  = query_documents create_session rag_query (mkQueryRequest q None) st
  /\ session_for create_session (mkQueryRequest q (Some "")) st
     = create_session st
  /\ query_documents create_session rag_query (mkQueryRequest q (Some "")) st
     = match create_session st with
       | (inl e, st1) => (raise (HTTPException 500 (Str e)), st1)
       | (inr sid, st1) =>
           match rag_query q sid st1 with
           | (inl e, st2) => (raise (HTTPException 500 (Str e)), st2)
           | (inr reply, st2) =>
               (ok (mkQueryResponse (fst reply) (snd reply) sid), st2)
           end
       end.
Proof.
  split; [| split].
  - rewrite !query_documents_run, !session_for_cases. reflexivity.
  - rewrite session_for_cases. reflexivity.
  - rewrite query_documents_run, session_for_cases. reflexivity.
Qed.

(** C6, amended: an unknown session on GET /api/chat/{session_id}
    surfaces as the NotFound failure with status 404, while a failure
    raised inside the query path of POST /api/query surfaces, whatever its
    kind, as the failure with status 500 whose detail is the text of the
    original failure. *)
Theorem failures_by_status (s : sessions_t) (unknown : string)
  (request : QueryRequest) (st st1 st2 : rag_state) (sid : string)
  (e : py_exn) :
  dict_lookup s unknown = None ->
  session_for create_session request st = (ok sid, st1) ->
  rag_query (request_query request) sid st1 = (raise e, st2) ->
  get_chat_conversation s unknown
  = raise (HTTPException 404 (Text "Chat not found"))
  /\ query_documents create_session rag_query request st
     = (raise (HTTPException 500 (Str e)), st2).
Proof.
  intros Hunknown Hsid Hq. split.
  - unfold get_chat_conversation, dict_contains. rewrite Hunknown.
    reflexivity.
  - rewrite query_documents_run, Hsid. unfold ok. rewrite Hq. reflexivity.
Qed.

(** C8: the startup handler never raises; when the folder exists and
    loading it raises, the handler prints the error after the
    announcement and returns. *)
Theorem startup_survives_loader (docs_exist : bool)
  (p : process rag_state) :
  fst (startup_event add_course_folder docs_exist p) = ok tt
  /\ match docs_exist, add_course_folder docs_path false (fst p) with
     | true, (inl e, st') =>
         snd (startup_event add_course_folder docs_exist p)
         = (st', (snd p ++ [ [Lit "Loading initial documents..."];
                             [Lit "Error loading documents: "; FmtExn e] ])%list)
     | _, _ => True
     end.
Proof.
  destruct p as [st out]. destruct docs_exist; simpl.
  - unfold startup_event, bindM, try_except, on_rag, print. simpl.
    destruct (add_course_folder docs_path false st) as [[e | loaded] st'];
      simpl.
    + split; [reflexivity |]. rewrite <- app_assoc. reflexivity.
    + split; [reflexivity | exact I].
  - split; [reflexivity | exact I].
Qed.

End FacadeProperties.

(** ** The session store of the core allocates fresh identifiers *)

(** The number that a string of decimal digits stands for. *)
Fixpoint read_decimal (v : nat) (s : string) : nat :=
  match s with
  | EmptyString => v
  | String c s' => read_decimal (10 * v + (nat_of_ascii c - 48)) s'
  end.

Lemma decimal_step (fuel n : nat) (acc : string) :
  Core.decimal (S fuel) n acc
  = if (n <? 10)%nat then String (ascii_of_nat (48 + n mod 10)) acc
    else Core.decimal fuel (n / 10)
           (String (ascii_of_nat (48 + n mod 10)) acc).
Proof. reflexivity. Qed.

Lemma read_decimal_digits (fuel n : nat) (acc : string) :
  (n < fuel)%nat ->
  read_decimal 0 (Core.decimal fuel n acc) = read_decimal n acc.
Proof.
  revert n acc. induction fuel as [| fuel IH]; intros n acc Hn; [lia |].
  assert (Hdigit : (nat_of_ascii (ascii_of_nat (48 + n mod 10)) - 48
                    = n mod 10)%nat).
  { pose proof (Nat.mod_upper_bound n 10) as Hm.
    rewrite nat_ascii_embedding; lia. }
  rewrite decimal_step. destruct (n <? 10)%nat eqn:Hsmall.
  - apply Nat.ltb_lt in Hsmall. cbn [read_decimal]. rewrite Hdigit.
    rewrite Nat.mod_small by exact Hsmall. f_equal.
  - apply Nat.ltb_ge in Hsmall.
    rewrite IH.
    + cbn [read_decimal]. rewrite Hdigit. f_equal.
      pose proof (Nat.div_mod_eq n 10). lia.
    + pose proof (Nat.div_lt n 10). lia.
Qed.

Lemma session_name_number (n : nat) :
  exists digits,
    Core.session_name n = "session_" ++ digits /\ read_decimal 0 digits = n.
Proof.
  exists (Core.decimal (S n) n ""). split; [reflexivity |].
  rewrite read_decimal_digits by lia. reflexivity.
Qed.

Lemma session_name_inj (n m : nat) :
  Core.session_name n = Core.session_name m -> n = m.
Proof.
  intros H.
  destruct (session_name_number n) as (dn & Hn & Hvn).
  destruct (session_name_number m) as (dm & Hm & Hvm).
  rewrite Hn, Hm in H. simpl in H. injection H as H.
  rewrite <- Hvn, <- Hvm, H. reflexivity.
Qed.

Lemma dict_contains_In {V : Type} (d : dict V) (k : string) :
  dict_contains d k = true <-> In k (dict_keys d).
Proof.
  unfold dict_contains. split.
  - destruct (dict_lookup d k) as [v |] eqn:E; [| discriminate].
    intros _. apply (dict_lookup_In d k v E).
  - intros H. destruct (dict_lookup_key d k H) as [v ->]. reflexivity.
Qed.

Lemma next_free_spec (d : sessions_t) (fuel n : nat) :
  (n <= Core.next_free fuel n d <= n + fuel)%nat
  /\ (forall k,
        (n <= k < Core.next_free fuel n d)%nat ->
        dict_contains d (Core.session_name k) = true)
  /\ ((Core.next_free fuel n d < n + fuel)%nat ->
      dict_contains d (Core.session_name (Core.next_free fuel n d)) = false).
Proof.
  revert n. induction fuel as [| fuel IH]; intros n; simpl.
  - repeat split; intros; lia.
  - destruct (dict_contains d (Core.session_name n)) eqn:Htaken.
    + destruct (IH (S n)) as (Hrange & Hbelow & Hfree).
      split; [lia |]. split.
      * intros k Hk. destruct (Nat.eq_dec k n) as [-> | Hne];
          [exact Htaken | apply Hbelow; lia].
      * intros Hlt. apply Hfree. lia.
    + split; [lia |]. split; [intros k Hk; lia | intros _; exact Htaken].
Qed.

Lemma names_NoDup (n count : nat) :
  NoDup (map Core.session_name (seq n count)).
Proof.
  revert n. induction count as [| count IH]; intros n; simpl; constructor.
  - intros Hin. apply in_map_iff in Hin. destruct Hin as (k & Hk & Hin).
    apply session_name_inj in Hk. apply in_seq in Hin. lia.
  - apply IH.
Qed.

(** Among as many numbers as the store has sessions, plus one, there is
    one whose identifier the store does not hold. *)
Lemma next_free_is_free (d : sessions_t) (n : nat) :
  dict_contains d (Core.session_name (Core.next_free (List.length d) n d))
  = false.
Proof.
  destruct (next_free_spec d (List.length d) n) as (Hrange & Hbelow & Hfree).
  destruct (dict_contains d
              (Core.session_name (Core.next_free (List.length d) n d)))
    eqn:Htaken; [| reflexivity].
  exfalso.
  assert (Hlast : Core.next_free (List.length d) n d = (n + List.length d)%nat).
  { destruct (Nat.eq_dec (Core.next_free (List.length d) n d)
                (n + List.length d)) as [E | E]; [exact E |].
    assert (Hf := Hfree ltac:(lia)). congruence. }
  assert (Hincl : incl (map Core.session_name (seq n (S (List.length d))))
                    (dict_keys d)).
  { intros name Hin. apply in_map_iff in Hin. destruct Hin as (k & <- & Hk).
    apply in_seq in Hk. apply dict_contains_In.
    destruct (Nat.eq_dec k (n + List.length d)) as [-> | Hne].
    - rewrite <- Hlast. exact Htaken.
    - apply Hbelow. lia. }
  pose proof (NoDup_incl_length (names_NoDup n (S (List.length d))) Hincl)
    as Hlen.
  unfold dict_keys in Hlen. rewrite !length_map, length_seq in Hlen. lia.
Qed.

Lemma dict_set_lookup {V : Type} (d : dict V) (k : string) (v : V) :
  dict_lookup (Core.dict_set d k v) k = Some v.
Proof.
  induction d as [| [k' v'] rest IH]; simpl.
  - rewrite String.eqb_refl. reflexivity.
  - destruct (String.eqb k k') eqn:E; simpl; rewrite E; [reflexivity |].
    exact IH.
Qed.

(** [Core.create_session] never fails; the identifier it returns is not a
    key of the store it is called in, and in the store it leaves that
    identifier has no messages. *)
Lemma core_create_session_fresh (st : Core.store) :
  exists sid st1,
    Core.create_session st = (ok sid, st1)
    /\ ~ In sid (dict_keys (Core.sessions st))
    /\ dict_lookup (Core.sessions st1) sid = Some []
    /\ (Core.session_counter st < Core.session_counter st1)%nat.
Proof.
  unfold Core.create_session.
  eexists. eexists. split; [reflexivity |]. simpl. split; [| split].
  - rewrite <- dict_contains_In, next_free_is_free. discriminate.
  - apply dict_set_lookup.
  - destruct (next_free_spec (Core.sessions st)
                (List.length (Core.sessions st))
                (S (Core.session_counter st))) as (Hrange & _). lia.
Qed.

Lemma core_allocates_fresh :
  allocates_fresh (fun st => dict_keys (Core.sessions st)) Core.create_session.
Proof.
  intros st sid st1 H.
  destruct (core_create_session_fresh st) as (sid' & st1' & Hrun & Hfresh & _).
  rewrite Hrun in H. injection H as <- <-. exact Hfresh.
Qed.

(** The query path read as "a NotFound of the core keeps a status of its
    own": it does not leave the handler with the status 500 of the
    generic failure. *)
Definition query_path_keeps_not_found : Prop :=
  forall (S C : Type) (create : M S string)
         (run : string -> string -> M S (string * list C))
         (request : QueryRequest) (st st1 st2 : S) (sid message : string),
    session_for create request st = (ok sid, st1) ->
    run (request_query request) sid st1
    = (raise (CoreError NotFound message), st2) ->
    status_of (fst (query_documents create run request st)) <> Some 500.

Definition first_question : QueryRequest :=
  mkQueryRequest "What is RAG?" None.

Definition resumed_question : QueryRequest :=
  mkQueryRequest "And a chunk?" (Some "session_7").

Definition unknown_session : py_exn := CoreError NotFound "unknown session".

(** A store in which a caller already resumed a conversation under the
    identifier that the counter would give next. *)
Definition resumed_store : Core.store :=
  Core.mkStore
    [("session_1", [msg "user" "What is RAG?"; msg "assistant" "Retrieval."])]
    0.

Example create_session_passes_taken_name :
  Core.create_session resumed_store
  = (ok "session_2",
     Core.mkStore
       [("session_1",
         [msg "user" "What is RAG?"; msg "assistant" "Retrieval."]);
        ("session_2", [])] 2).
Proof. vm_compute. reflexivity. Qed.

Lemma query_response_contents_witness :
  query_documents Core.create_session echo_query first_question resumed_store
  = (ok (mkQueryResponse "You asked: What is RAG?" [] "session_2"),
     Core.mkStore
       [("session_1",
         [msg "user" "What is RAG?"; msg "assistant" "Retrieval."]);
        ("session_2",
         [msg "user" "What is RAG?";
          msg "assistant" "You asked: What is RAG?"])] 2)
  /\ ~ In "session_2" (dict_keys (Core.sessions resumed_store)).
Proof.
  destruct (query_response_contents Core.store Core.SourceCitation
              Core.create_session echo_query first_question resumed_store)
    as (_ & Hrun & _ & Hfresh).
  assert (Hresult :
            query_documents Core.create_session echo_query first_question
              resumed_store
            = (ok (mkQueryResponse "You asked: What is RAG?" [] "session_2"),
               Core.mkStore
                 [("session_1",
                   [msg "user" "What is RAG?"; msg "assistant" "Retrieval."]);
                  ("session_2",
                   [msg "user" "What is RAG?";
                    msg "assistant" "You asked: What is RAG?"])] 2)).
  { rewrite Hrun. vm_compute. reflexivity. }
  split; [exact Hresult |].
  apply (Hfresh (fun st => dict_keys (Core.sessions st)) core_allocates_fresh
           _ _ (eq_refl : truthy (request_session_id first_question) = false)
           Hresult).
Defined.

Lemma not_found_leaves_as_500 :
  query_documents Core.create_session (raising_query unknown_session)
    first_question empty_store
  = (raise (HTTPException 500 (Str unknown_session)),
     Core.mkStore [("session_1", [])] 1).
Proof. vm_compute. reflexivity. Qed.

(** C6, as stated, fails: a NotFound raised inside the query path leaves
    POST /api/query with status 500, the status of every other failure. *)
Lemma query_path_collapses_not_found : ~ query_path_keeps_not_found.
Proof.
  intros claim.
  apply (claim Core.store Core.SourceCitation Core.create_session
           (raising_query unknown_session) first_question empty_store
           (Core.mkStore [("session_1", [])] 1)
           (Core.mkStore [("session_1", [])] 1)
           "session_1" "unknown session").
  - vm_compute. reflexivity.
  - reflexivity.
  - rewrite not_found_leaves_as_500. reflexivity.
Qed.

Lemma failures_by_status_witness :
  get_chat_conversation sample_sessions "session_99"
  = raise (HTTPException 404 (Text "Chat not found"))
  /\ query_documents Core.create_session (raising_query unknown_session)
       first_question empty_store
     = (raise (HTTPException 500 (Str unknown_session)),
        Core.mkStore [("session_1", [])] 1).
Proof.
  apply (failures_by_status Core.store Core.SourceCitation
           Core.create_session (raising_query unknown_session)
           sample_sessions "session_99" first_question empty_store
           (Core.mkStore [("session_1", [])] 1)
           (Core.mkStore [("session_1", [])] 1) "session_1" unknown_session).
  - reflexivity.
  - vm_compute. reflexivity.
  - reflexivity.
Defined.

Example first_question_answered :
  query_documents Core.create_session echo_query first_question empty_store
  = (ok (mkQueryResponse "You asked: What is RAG?" [] "session_1"),
     Core.mkStore
       [("session_1",
         [msg "user" "What is RAG?";
          msg "assistant" "You asked: What is RAG?"])] 1).
Proof. vm_compute. reflexivity. Qed.

Example resumed_question_answered :
  fst (query_documents Core.create_session echo_query resumed_question
         empty_store)
  = ok (mkQueryResponse "You asked: And a chunk?" [] "session_7").
Proof. vm_compute. reflexivity. Qed.

Example startup_with_broken_folder :
  startup_event no_folder true (empty_store, [])
  = (ok tt,
     (empty_store,
      [ [Lit "Loading initial documents..."];
        [Lit "Error loading documents: ";
         FmtExn (CoreError OtherError "cannot read folder")] ])).
Proof. vm_compute. reflexivity. Qed.

Example startup_with_two_courses :
  startup_event two_courses true (empty_store, [])
  = (ok tt,
     (empty_store,
      [ [Lit "Loading initial documents..."];
        [Lit "Loaded "; FmtInt 2; Lit " courses with "; FmtInt 17;
         Lit " chunks"] ])).
Proof. vm_compute. reflexivity. Qed.

Example session_names :
  map Core.session_name [1; 9; 10; 123]%nat
  = ["session_1"; "session_9"; "session_10"; "session_123"].
Proof. vm_compute. reflexivity. Qed.

(** ** The claim about the answer synthesizer *)

(** C5: when the generation backend fails on the request that the
    synthesizer built, the call fails with that failure and the store is
    left as it was; the message count of every session, the queried one
    included, is what it was before the call. *)
Theorem failed_generation_appends_nothing
  (search : string -> nat -> result (list Core.Chunk))
  (generate : Core.GenerationRequest -> result string)
  (query_text sid : string) (st : Core.store) (chunks : list Core.Chunk)
  (e : py_exn) :
  search query_text Core.top_k = ok chunks ->
  generate (Core.build_request st query_text sid chunks) = raise e ->
  fst (Core.answer_query search generate query_text sid st) = raise e
  /\ Core.message_count
       (snd (Core.answer_query search generate query_text sid st)) sid
     = Core.message_count st sid
  /\ snd (Core.answer_query search generate query_text sid st) = st.
Proof.
  intros Hsearch Hgen. unfold Core.answer_query.
  rewrite Hsearch. unfold ok. rewrite Hgen. unfold raise. simpl.
  repeat split.
Qed.

Definition ongoing_store : Core.store :=
  Core.mkStore
    [("session_1", [msg "user" "What is RAG?"; msg "assistant" "Retrieval."])]
    1.

Lemma failed_generation_appends_nothing_witness :
  fst (Core.answer_query no_chunks failing_backend "And a chunk?" "session_1"
         ongoing_store)
  = raise (CoreError BackendUnavailable "generation backend unreachable")
  /\ Core.message_count
       (snd (Core.answer_query no_chunks failing_backend "And a chunk?"
               "session_1" ongoing_store)) "session_1"
     = Core.message_count ongoing_store "session_1"
  /\ snd (Core.answer_query no_chunks failing_backend "And a chunk?"
            "session_1" ongoing_store)
     = ongoing_store.
Proof.
  apply (failed_generation_appends_nothing no_chunks failing_backend
           "And a chunk?" "session_1" ongoing_store []).
  - reflexivity.
  - reflexivity.
Defined.

(** With a working backend the same call appends the two messages. *)
Example answered_query_appends_two :
  Core.message_count
    (snd (Core.answer_query no_chunks echo_backend "And a chunk?" "session_1"
            ongoing_store)) "session_1"
  = 4%nat.
Proof. vm_compute. reflexivity. Qed.

(** * Further properties of the handlers *)

(** ** The number of a session identifier *)

Fixpoint contains_char (c : ascii) (s : string) : bool :=
  match s with
  | EmptyString => false
  | String c' s' => Ascii.eqb c' c || contains_char c s'
  end.

Lemma split_cons (sep : ascii) (s : string) :
  exists field fields, split sep s = field :: fields.
Proof.
  induction s as [| c s (field & fields & IH)]; simpl.
  - exists "", []. reflexivity.
  - destruct (Ascii.eqb c sep).
    + exists "", (split sep s). reflexivity.
    + rewrite IH. exists (String c field), fields. reflexivity.
Qed.

Lemma split_single (sep : ascii) (s : string) :
  contains_char sep s = false <-> List.length (split sep s) = 1%nat.
Proof.
  induction s as [| c s IH]; simpl.
  - split; reflexivity.
  - destruct (Ascii.eqb c sep); simpl.
    + split; [discriminate |]. intros H.
      destruct (split_cons sep s) as (f & fs & E). rewrite E in H.
      discriminate H.
    + destruct (split_cons sep s) as (f & fs & E). rewrite E in *.
      simpl in *. exact IH.
Qed.

Lemma split_app (sep : ascii) (s rest : string) :
  split sep (s ++ String sep rest) = (split sep s ++ split sep rest)%list.
Proof.
  induction s as [| c s IH]; simpl.
  - rewrite Ascii.eqb_refl. reflexivity.
  - destruct (Ascii.eqb c sep); [rewrite IH; reflexivity |].
    rewrite IH. destruct (split_cons sep s) as (f & fs & E). rewrite E.
    reflexivity.
Qed.

Lemma py_int_raises (s : string) (e : py_exn) :
  py_int s = raise e -> e = ValueError s.
Proof.
  unfold py_int.
  destruct (match lstrip s with
            | String "-"%char r => (true, r)
            | String "+"%char r => (false, r)
            | _ => (false, lstrip s)
            end) as [negative rest].
  destruct (digits 0 0 false rest) as [[v count] |].
  - destruct (int_max_str_digits <? count)%nat; intros H.
    + injection H as <-. reflexivity.
    + discriminate H.
  - intros H. injection H as <-. reflexivity.
Qed.

Lemma session_number_raises (sid : string) (e : py_exn) :
  session_number sid = raise e ->
  e = IndexError /\ nth_error (split "_" sid) 1 = None
  \/ exists field,
       nth_error (split "_" sid) 1 = Some field /\ e = ValueError field.
Proof.
  unfold session_number, index.
  destruct (nth_error (split "_" sid) 1) as [field |]; simpl; intros H.
  - right. exists field. split; [reflexivity |].
    apply py_int_raises. exact H.
  - left. injection H as <-. split; reflexivity.
Qed.

(** X1: the number of an identifier cannot be read for want of a second
    field exactly when the identifier has no underscore: that, and nothing
    else, raises [IndexError]. *)
Theorem session_number_index_error (sid : string) :
  session_number sid = raise IndexError <-> contains_char "_" sid = false.
Proof.
  rewrite split_single. split.
  - intros H. apply session_number_raises in H.
    destruct H as [[_ Hnth] | (field & _ & Hbad)]; [| discriminate Hbad].
    destruct (split_cons "_" sid) as (f & fs & E). rewrite E in *.
    destruct fs; [reflexivity | discriminate Hnth].
  - intros Hlen. unfold session_number, index.
    destruct (split "_" sid) as [| f [| g fs]]; try discriminate Hlen.
    reflexivity.
Qed.

(** X2: only the field between the first and the second underscore
    counts: whatever follows a further underscore changes neither the
    number of an identifier nor the failure to read it. *)
Theorem session_number_ignores_suffix (sid rest : string) :
  contains_char "_" sid = true ->
  session_number (sid ++ String "_" rest) = session_number sid.
Proof.
  intros Hsep. unfold session_number. rewrite split_app.
  destruct (split "_" sid) as [| f [| g fs]] eqn:E.
  - destruct (split_cons "_" sid) as (f & fs & E'). congruence.
  - assert (Hone : List.length (split "_" sid) = 1%nat)
      by (rewrite E; reflexivity).
    apply split_single in Hone. congruence.
  - reflexivity.
Qed.

Lemma session_number_ignores_suffix_witness :
  session_number ("session_7" ++ String "_" "draft_2") = session_number "session_7".
Proof.
  apply (session_number_ignores_suffix "session_7" "draft_2").
  reflexivity.
Defined.

Example session_number_suffix : session_number "session_7_draft_2" = ok 7.
Proof. vm_compute. reflexivity. Qed.

(** ** When the listing fails *)

Lemma keyed_raises {A : Type} (key : A -> result Z) (xs : list A)
  (e : py_exn) :
  keyed key xs = raise e -> exists x, In x xs /\ key x = raise e.
Proof.
  induction xs as [| x rest IH]; simpl; intros H.
  - discriminate H.
  - destruct (key x) as [e' | k] eqn:Hk; simpl in H.
    + injection H as <-. exists x. split; [left; reflexivity | exact Hk].
    + destruct (keyed key rest) as [e' | tail]; simpl in H;
        [| discriminate H].
      destruct (IH H) as (y & Hy & Hkey).
      exists y. split; [right; exact Hy | exact Hkey].
Qed.

Lemma sorted_session_ids_raises (s : sessions_t) (cause : py_exn) :
  sorted_session_ids s = raise cause ->
  exists sid, In sid (dict_keys s) /\ session_number sid = raise cause.
Proof.
  unfold sorted_session_ids, sorted_reverse. intros H.
  destruct (keyed session_number (dict_keys s)) as [e | kxs] eqn:Hk;
    simpl in H; [| discriminate H].
  injection H as <-. apply keyed_raises. exact Hk.
Qed.

Lemma get_chat_history_raises (s : sessions_t) (e : py_exn) :
  get_chat_history s = raise e ->
  exists cause,
    sorted_session_ids s = raise cause /\ e = HTTPException 500 (Str cause).
Proof.
  intros H. destruct (sorted_session_ids s) as [cause | ids] eqn:Hids.
  - exists cause. split; [reflexivity |].
    unfold get_chat_history in H. rewrite Hids in H. simpl in H.
    injection H as <-. reflexivity.
  - rewrite (get_chat_history_of_ids s ids Hids) in H. discriminate H.
Qed.

(** X3: the listing fails exactly when some stored identifier, whether
    its session is empty, old or recent, has no integer after its first
    underscore. *)
Theorem listing_fails_iff_unreadable_id (s : sessions_t) :
  (exists e, get_chat_history s = raise e)
  <-> exists sid, In sid (dict_keys s) /\ ~ numbered sid.
Proof.
  split.
  - intros (e & H). apply get_chat_history_raises in H.
    destruct H as (cause & Hids & _).
    apply sorted_session_ids_raises in Hids. destruct Hids as (sid & Hin & Hn).
    exists sid. split; [exact Hin |].
    intros (n & Hnum). rewrite Hnum in Hn. discriminate Hn.
  - intros (sid & Hin & Hbad).
    destruct (get_chat_history s) as [e | chats] eqn:H.
    + exists e. reflexivity.
    + exfalso. apply Hbad. apply get_chat_history_ok in H.
      destruct H as (ids & Hids & _). apply sorted_reverse_spec in Hids.
      destruct Hids as (_ & Hmem & _ & Hall).
      rewrite Forall_forall in Hall. apply Hall. apply Hmem. exact Hin.
Qed.

(** X4: a failing listing always has status 500, and its cause is the
    [IndexError] or [ValueError] of reading the number of a stored
    identifier; looking up the messages of a ranked session never fails. *)
Theorem listing_failure_cause (s : sessions_t) (e : py_exn) :
  get_chat_history s = raise e ->
  exists sid cause,
    In sid (dict_keys s)
    /\ session_number sid = raise cause
    /\ (cause = IndexError \/ exists field, cause = ValueError field)
    /\ e = HTTPException 500 (Str cause).
Proof.
  intros H. apply get_chat_history_raises in H.
  destruct H as (cause & Hids & ->).
  apply sorted_session_ids_raises in Hids. destruct Hids as (sid & Hin & Hn).
  exists sid, cause. repeat split; try assumption.
  apply session_number_raises in Hn.
  destruct Hn as [[-> _] | (field & _ & ->)].
  - left. reflexivity.
  - right. exists field. reflexivity.
Qed.

(** A conversation resumed under an identifier of the caller's choice. *)
Definition sessions_with_stray_id : sessions_t :=
  (sample_sessions ++ [("my-chat", [msg "user" "hello again"])])%list.

Lemma listing_failure_cause_witness :
  exists sid cause,
    In sid (dict_keys sessions_with_stray_id)
    /\ session_number sid = raise cause
    /\ (cause = IndexError \/ exists field, cause = ValueError field)
    /\ HTTPException 500 (Str IndexError) = HTTPException 500 (Str cause).
Proof.
  apply (listing_failure_cause sessions_with_stray_id).
  vm_compute. reflexivity.
Defined.

(** ** The ranking of the sessions *)

Lemma insert_desc_perm {A : Type} (p : Z * A) (l : list (Z * A)) :
  Permutation (insert_desc p l) (p :: l).
Proof.
  induction l as [| q rest IH]; simpl.
  - apply Permutation_refl.
  - destruct (fst p <? fst q).
    + apply perm_trans with (q :: p :: rest).
      * apply perm_skip. exact IH.
      * apply perm_swap.
    + apply Permutation_refl.
Qed.

Lemma sort_desc_perm {A : Type} (l : list (Z * A)) :
  Permutation (sort_desc l) l.
Proof.
  induction l as [| p rest IH]; simpl.
  - apply perm_nil.
  - apply perm_trans with (p :: sort_desc rest).
    + apply insert_desc_perm.
    + apply perm_skip. exact IH.
Qed.

Lemma sorted_session_ids_perm (s : sessions_t) (ids : list string) :
  sorted_session_ids s = ok ids -> Permutation ids (dict_keys s).
Proof.
  unfold sorted_session_ids, sorted_reverse. intros H.
  apply bind_ok in H. destruct H as (kxs & Hk & H). injection H as <-.
  apply keyed_spec in Hk. destruct Hk as [Hmap _].
  rewrite <- Hmap. apply Permutation_map. apply sort_desc_perm.
Qed.

(** X5: when the numbers of all stored identifiers can be read, the
    ranking is the stored identifiers rearranged, each exactly once, in
    descending order of their numbers. *)
Theorem ranking_sorted_permutation (s : sessions_t) (ids : list string) :
  sorted_session_ids s = ok ids ->
  Permutation ids (dict_keys s)
  /\ StronglySorted (before_by_key session_number) ids
  /\ Forall numbered ids.
Proof.
  intros H. split; [apply sorted_session_ids_perm; exact H |].
  apply sorted_reverse_spec in H. destruct H as (Hsorted & _ & _ & Hall).
  split; [exact Hsorted | exact Hall].
Qed.

Lemma ranking_sorted_permutation_witness :
  Permutation ["session_10"; "session_3"; "session_2"; "session_1"]
    (dict_keys sample_sessions)
  /\ StronglySorted (before_by_key session_number)
       ["session_10"; "session_3"; "session_2"; "session_1"]
  /\ Forall numbered ["session_10"; "session_3"; "session_2"; "session_1"].
Proof.
  apply (ranking_sorted_permutation sample_sessions).
  vm_compute. reflexivity.
Defined.

Lemma firstn_NoDup {A : Type} (n : nat) (l : list A) :
  NoDup l -> NoDup (firstn n l).
Proof.
  intros H. revert n. induction H as [| x l Hx Hl IH]; intros [| n]; simpl;
    try constructor.
  - intros Hin. apply Hx. apply (firstn_In _ _ _ Hin).
  - apply IH.
Qed.

(** X6: a store with pairwise distinct keys never shows a session twice:
    the identifiers of the listing are pairwise distinct. *)
Theorem listing_has_no_repeats (s : sessions_t)
  (chats : list ChatHistoryItem) :
  dict_wf s ->
  get_chat_history s = ok chats ->
  NoDup (map session_id chats).
Proof.
  intros Hwf H. apply get_chat_history_ok in H.
  destruct H as (ids & Hids & ->).
  rewrite entries_ids. apply NoDup_filter, firstn_NoDup.
  apply sorted_session_ids_perm in Hids.
  apply (Permutation_NoDup (Permutation_sym Hids)). exact Hwf.
Qed.

Lemma listing_has_no_repeats_witness :
  NoDup (map session_id
           [long_question_item; mkChatHistoryItem "session_1" "hello" 2]).
Proof.
  apply (listing_has_no_repeats sample_sessions).
  - distinct_keys.
  - vm_compute. reflexivity.
Defined.

Definition has_number (n : Z) (sid : string) : bool :=
  match session_number sid with
  | inr k => k =? n
  | inl _ => false
  end.

Lemma insert_desc_same_key {A : Type} (n : Z) (p : Z * A)
  (l : list (Z * A)) :
  filter (fun q => fst q =? n) (insert_desc p l)
  = filter (fun q => fst q =? n) (p :: l).
Proof.
  induction l as [| q rest IH]; [reflexivity |].
  simpl insert_desc. destruct (fst p <? fst q) eqn:Hlt; [| reflexivity].
  apply Z.ltb_lt in Hlt. simpl in *. rewrite IH.
  destruct (fst p =? n) eqn:Hp; [| reflexivity].
  apply Z.eqb_eq in Hp.
  destruct (fst q =? n) eqn:Hq; [| reflexivity].
  apply Z.eqb_eq in Hq. lia.
Qed.

Lemma sort_desc_same_key {A : Type} (n : Z) (l : list (Z * A)) :
  filter (fun q => fst q =? n) (sort_desc l)
  = filter (fun q => fst q =? n) l.
Proof.
  induction l as [| p rest IH]; [reflexivity |].
  simpl sort_desc. rewrite insert_desc_same_key. simpl. rewrite IH.
  reflexivity.
Qed.

Lemma has_number_keyed (n : Z) (l : list (Z * string)) :
  Forall (fun p => session_number (snd p) = ok (fst p)) l ->
  filter (has_number n) (map snd l)
  = map snd (filter (fun q => fst q =? n) l).
Proof.
  induction 1 as [| p rest Hp _ IH]; simpl; [reflexivity |].
  unfold has_number at 1. rewrite Hp. unfold ok.
  destruct (fst p =? n); simpl; rewrite IH; reflexivity.
Qed.

(** X7: the sort is stable: among the sessions whose identifiers carry
    the same number, the ranking keeps the order in which the store holds
    them. *)
Theorem ranking_is_stable (s : sessions_t) (ids : list string) (n : Z) :
  sorted_session_ids s = ok ids ->
  filter (has_number n) ids = filter (has_number n) (dict_keys s).
Proof.
  unfold sorted_session_ids, sorted_reverse. intros H.
  apply bind_ok in H. destruct H as (kxs & Hk & H). injection H as <-.
  apply keyed_spec in Hk. destruct Hk as [Hmap Hall].
  rewrite <- Hmap.
  rewrite !has_number_keyed.
  - rewrite sort_desc_same_key. reflexivity.
  - exact Hall.
  - rewrite Forall_forall in *. intros p Hp. apply Hall.
    apply sort_desc_In. exact Hp.
Qed.

(** Conversations under identifiers with the same number. *)
Definition tied_sessions : sessions_t :=
  [ ("session_1", [msg "user" "first"]);
    ("session_2", [msg "user" "second"]);
    ("chat_2_copy", [msg "user" "third"]);
    ("session_02", [msg "user" "fourth"]) ].

Lemma ranking_is_stable_witness :
  filter (has_number 2) ["session_2"; "chat_2_copy"; "session_02"; "session_1"]
  = filter (has_number 2) (dict_keys tied_sessions).
Proof.
  apply (ranking_is_stable tied_sessions).
  vm_compute. reflexivity.
Defined.

Example tied_sessions_listing :
  get_chat_history tied_sessions
  = ok [ mkChatHistoryItem "session_2" "second" 1;
         mkChatHistoryItem "chat_2_copy" "third" 1;
         mkChatHistoryItem "session_02" "fourth" 1;
         mkChatHistoryItem "session_1" "first" 1 ].
Proof. vm_compute. reflexivity. Qed.

(** ** What the entries of the listing say *)

Lemma string_length_app (a b : string) :
  String.length (a ++ b) = (String.length a + String.length b)%nat.
Proof.
  induction a as [| c a IH]; simpl; [reflexivity |].
  rewrite IH. reflexivity.
Qed.

Lemma title_of_length (first : string) :
  String.length (title_of first)
  = (if (50 <? String.length first)%nat then 53 else String.length first)%nat.
Proof.
  unfold title_of. destruct (50 <? String.length first)%nat eqn:Hlong.
  - apply Nat.ltb_lt in Hlong.
    rewrite string_length_app, slice_to_length; [reflexivity | lia].
  - apply Nat.ltb_ge in Hlong. rewrite slice_to_short; [reflexivity | lia].
Qed.

(** X8: no title of the listing is empty, and none is longer than 53
    characters. *)
Theorem title_length_bounds (s : sessions_t) (chats : list ChatHistoryItem)
  (item : ChatHistoryItem) :
  get_chat_history s = ok chats ->
  In item chats ->
  (1 <= String.length (title item) <= 53)%nat.
Proof.
  intros H Hitem.
  destruct (listed_entry s chats item H Hitem)
    as (messages & first & _ & _ & Hne & Ht & _).
  rewrite Ht, title_of_length.
  destruct (50 <? String.length first)%nat eqn:Hlong.
  - lia.
  - apply Nat.ltb_ge in Hlong.
    destruct first as [| c rest]; [contradiction |]. simpl in *. lia.
Qed.

Lemma title_length_bounds_witness :
  (1 <= String.length (title long_question_item) <= 53)%nat.
Proof.
  apply (title_length_bounds sample_sessions
           [long_question_item; mkChatHistoryItem "session_1" "hello" 2]).
  - vm_compute. reflexivity.
  - left. reflexivity.
Defined.

(** X9: every session of the listing can be fetched: GET
    /api/chat/{session_id} returns its transcript, never NotFound, and
    the transcript has as many messages as the listing counted, those of
    the assistant included. *)
Theorem listed_session_is_fetchable (s : sessions_t)
  (chats : list ChatHistoryItem) (item : ChatHistoryItem) :
  get_chat_history s = ok chats ->
  In item chats ->
  exists conversation,
    get_chat_conversation s (session_id item) = ok conversation
    /\ conv_session_id conversation = session_id item
    /\ Z.of_nat (List.length (conv_messages conversation))
       = message_count item.
Proof.
  intros H Hitem.
  destruct (listed_entry s chats item H Hitem)
    as (messages & first & Hm & _ & _ & _ & Hcount & _).
  exists (mkConversation (session_id item)
            (map (fun m => (role m, content m)) messages)).
  split; [| split].
  - unfold get_chat_conversation, dict_contains, dict_get. rewrite Hm.
    reflexivity.
  - reflexivity.
  - simpl. rewrite length_map. symmetry. exact Hcount.
Qed.

Lemma listed_session_is_fetchable_witness :
  exists conversation,
    get_chat_conversation sample_sessions "session_1" = ok conversation
    /\ conv_session_id conversation = "session_1"
    /\ Z.of_nat (List.length (conv_messages conversation)) = 2.
Proof.
  apply (listed_session_is_fetchable sample_sessions
           [long_question_item; mkChatHistoryItem "session_1" "hello" 2]
           (mkChatHistoryItem "session_1" "hello" 2)).
  - vm_compute. reflexivity.
  - right. left. reflexivity.
Defined.

(** X10: a store of at most 10 sessions, all with readable numbers, shows
    every conversation: a session is listed exactly when it has a first
    user message with some content. *)
Theorem small_store_lists_every_conversation (s : sessions_t)
  (chats : list ChatHistoryItem) (sid : string) :
  (List.length s <= 10)%nat ->
  get_chat_history s = ok chats ->
  (In sid (map session_id chats) <-> has_first_user_text s sid).
Proof.
  intros Hsmall H. apply get_chat_history_ok in H.
  destruct H as (ids & Hids & ->).
  rewrite entries_ids, filter_In, listable_iff.
  apply sorted_reverse_spec in Hids. destruct Hids as (_ & Hmem & Hlen & _).
  rewrite firstn_all2.
  - split; [intros [_ Htext]; exact Htext |].
    intros Htext. split; [| exact Htext].
    destruct Htext as (messages & first & Hm & _).
    apply Hmem. apply (dict_lookup_In s sid messages Hm).
  - rewrite Hlen. unfold dict_keys. rewrite length_map. exact Hsmall.
Qed.

Lemma small_store_lists_every_conversation_witness :
  In "session_3"
    (map session_id
       [long_question_item; mkChatHistoryItem "session_1" "hello" 2])
  <-> has_first_user_text sample_sessions "session_3".
Proof.
  apply (small_store_lists_every_conversation sample_sessions).
  - simpl. lia.
  - vm_compute. reflexivity.
Defined.

(** ** Failures of POST /api/query, the startup output, GET /api/courses *)

Section HandlerProperties.

Variable rag_state : Type.
Variable SourceCitation : Type.
Variable py_value : Type.
Variable create_session : M rag_state string.
Variable rag_query :
  string -> string -> M rag_state (string * list SourceCitation).
Variable add_course_folder : string -> bool -> M rag_state (Z * Z).
Variable get_course_analytics : M rag_state (dict py_value).
Variable new_CourseStats : py_value -> py_value -> result CourseStats.

(** X11: POST /api/query fails with status 500 and nothing else: the
    exception of [create_session] or of the query, an [HTTPException] of
    another status included, becomes the detail of a new failure with
    status 500, and the state stays as the failing step left it. *)
Theorem query_fails_only_with_500 (request : QueryRequest)
  (st st' : rag_state) (e : py_exn) :
  query_documents create_session rag_query request st = (raise e, st') ->
  exists cause,
    e = HTTPException 500 (Str cause)
    /\ (session_for create_session request st = (raise cause, st')
        \/ exists sid st1,
             session_for create_session request st = (ok sid, st1)
             /\ rag_query (request_query request) sid st1
                = (raise cause, st')).
Proof.
  intros H. rewrite query_documents_run in H.
  destruct (session_for create_session request st) as [[cause | sid] st1].
  - injection H as <- <-. exists cause. split; [reflexivity |].
    left. reflexivity.
  - destruct (rag_query (request_query request) sid st1)
      as [[cause | reply] st2] eqn:Hq.
    + injection H as <- <-. exists cause. split; [reflexivity |].
      right. exists sid, st1. split; [reflexivity | exact Hq].
    + discriminate H.
Qed.

(** X12: the startup handler keeps what was printed before it; without
    the documents folder it prints nothing and leaves the RAG system
    alone, and with it it prints the announcement and one more line, the
    counts or the error, after a single call of [add_course_folder] with
    [clear_existing=False]. *)
Theorem startup_output (docs_exist : bool) (p : process rag_state) :
  startup_event add_course_folder docs_exist p
  = (ok tt,
     if docs_exist then
       (snd (add_course_folder docs_path false (fst p)),
        (snd p
         ++ [ [Lit "Loading initial documents..."];
              match fst (add_course_folder docs_path false (fst p)) with
              | inr loaded =>
                  [Lit "Loaded "; FmtInt (fst loaded); Lit " courses with ";
                   FmtInt (snd loaded); Lit " chunks"]
              | inl e => [Lit "Error loading documents: "; FmtExn e]
              end ])%list)
     else p).
Proof.
  destruct p as [st out]. destruct docs_exist.
  - unfold startup_event, bindM, try_except, on_rag, print. simpl.
    destruct (add_course_folder docs_path false st) as [[e | loaded] st'];
      simpl; rewrite <- app_assoc; reflexivity.
  - reflexivity.
Qed.

Lemma get_course_stats_run (st : rag_state) :
  get_course_stats get_course_analytics new_CourseStats st =
  match get_course_analytics st with
  | (inl e, st1) => (raise (HTTPException 500 (Str e)), st1)
  | (inr analytics, st1) =>
      (except_500
         (total <- dict_getitem analytics "total_courses" ;;
          titles <- dict_getitem analytics "course_titles" ;;
          new_CourseStats total titles),
       st1)
  end.
Proof.
  unfold get_course_stats, try_except, bindM, liftR, raiseM.
  destruct (get_course_analytics st) as [[e | analytics] st1];
    [reflexivity |].
  destruct (dict_getitem analytics "total_courses") as [e | total];
    [reflexivity |].
  destruct (dict_getitem analytics "course_titles") as [e | titles];
    [reflexivity |].
  simpl. destruct (new_CourseStats total titles); reflexivity.
Qed.

(** X13: when the analytics lack one of the two keys, GET /api/courses
    fails with status 500 and the [KeyError] of the first missing key,
    ["total_courses"] before ["course_titles"], whatever else the
    analytics hold. *)
Theorem course_stats_missing_key (st st1 : rag_state)
  (analytics : dict py_value) :
  get_course_analytics st = (ok analytics, st1) ->
  dict_lookup analytics "total_courses" = None
  \/ dict_lookup analytics "course_titles" = None ->
  get_course_stats get_course_analytics new_CourseStats st
  = (raise (HTTPException 500
              (Str (KeyError
                      (match dict_lookup analytics "total_courses" with
                       | None => "total_courses"
                       | Some _ => "course_titles"
                       end)))),
     st1).
Proof.
  intros Hrun Hmissing. rewrite get_course_stats_run. unfold ok in Hrun.
  rewrite Hrun. unfold dict_getitem.
  destruct (dict_lookup analytics "total_courses") as [total |].
  - destruct Hmissing as [Hmissing | Hmissing]; [discriminate Hmissing |].
    rewrite Hmissing. reflexivity.
  - reflexivity.
Qed.

(** X14: GET /api/courses answers only with what the constructor of
    [CourseStats] made of the two entries of the analytics, and fails
    only with status 500; either way the RAG system is left as
    [get_course_analytics] left it. *)
Theorem course_stats_outcome (st : rag_state) :
  snd (get_course_stats get_course_analytics new_CourseStats st)
  = snd (get_course_analytics st)
  /\ match fst (get_course_stats get_course_analytics new_CourseStats st) with
     | inr stats =>
         exists analytics total titles,
           fst (get_course_analytics st) = ok analytics
           /\ dict_lookup analytics "total_courses" = Some total
           /\ dict_lookup analytics "course_titles" = Some titles
           /\ new_CourseStats total titles = ok stats
     | inl e => exists cause, e = HTTPException 500 (Str cause)
     end.
Proof.
  rewrite get_course_stats_run.
  destruct (get_course_analytics st) as [[e | analytics] st1]; simpl.
  - split; [reflexivity |]. exists e. reflexivity.
  - split; [reflexivity |]. unfold dict_getitem.
    destruct (dict_lookup analytics "total_courses") as [total |] eqn:Ht;
      simpl; [| eexists; reflexivity].
    destruct (dict_lookup analytics "course_titles") as [titles |] eqn:Hc;
      simpl; [| eexists; reflexivity].
    destruct (new_CourseStats total titles) as [e | stats] eqn:Hnew; simpl.
    + eexists. reflexivity.
    + exists analytics, total, titles. repeat split; assumption.
Qed.

End HandlerProperties.

(** A core that answers a query with a failure of its own status. *)
Definition chat_not_found : py_exn := HTTPException 404 (Text "Chat not found").

Lemma query_fails_only_with_500_witness :
  exists cause,
    HTTPException 500 (Str chat_not_found) = HTTPException 500 (Str cause)
    /\ (session_for Core.create_session resumed_question empty_store
        = (raise cause, empty_store)
        \/ exists sid st1,
             session_for Core.create_session resumed_question empty_store
             = (ok sid, st1)
             /\ raising_query chat_not_found
                  (request_query resumed_question) sid st1
                = (raise cause, empty_store)).
Proof.
  apply (query_fails_only_with_500 Core.store Core.SourceCitation
           Core.create_session (raising_query chat_not_found)
           resumed_question empty_store empty_store).
  reflexivity.
Defined.

(** Analytics as the values of a dictionary: a count or a list of titles. *)
Inductive analytics_value : Type :=
| Count (n : Z)
| Titles (titles : list string).

Definition checked_stats (total titles : analytics_value)
  : result CourseStats :=
  match total, titles with
  | Count n, Titles ts => ok (mkCourseStats n ts)
  | _, _ => raise (CoreError ValidationError "CourseStats")
  end.

Definition titles_only : M Core.store (dict analytics_value) :=
  retM [("course_titles", Titles ["Intro to X"])].

Definition full_analytics : M Core.store (dict analytics_value) :=
  retM [("total_courses", Count 1); ("course_titles", Titles ["Intro to X"])].

Lemma course_stats_missing_key_witness :
  get_course_stats titles_only checked_stats empty_store
  = (raise (HTTPException 500 (Str (KeyError "total_courses"))), empty_store).
Proof.
  apply (course_stats_missing_key Core.store analytics_value titles_only
           checked_stats empty_store empty_store
           [("course_titles", Titles ["Intro to X"])]).
  - reflexivity.
  - left. reflexivity.
Defined.

Example course_stats_returned :
  get_course_stats full_analytics checked_stats empty_store
  = (ok (mkCourseStats 1 ["Intro to X"]), empty_store).
Proof. vm_compute. reflexivity. Qed.

(** ** The window of the listing *)

(** X15: a session that stands behind ten others in the ranking is never
    listed, whatever those ten hold, empty sessions included. *)
Theorem session_behind_window_not_listed (s : sessions_t)
  (ids : list string) (chats : list ChatHistoryItem) (i : nat)
  (sid : string) :
  dict_wf s ->
  sorted_session_ids s = ok ids ->
  get_chat_history s = ok chats ->
  nth_error ids i = Some sid ->
  (10 <= i)%nat ->
  ~ In sid (map session_id chats).
Proof.
  intros Hwf Hids H Hi Hfar Hin.
  apply get_chat_history_ok in H. destruct H as (ranking & Hranking & ->).
  rewrite Hids in Hranking. injection Hranking as <-.
  rewrite entries_ids in Hin. apply filter_In in Hin. destruct Hin as [Hin _].
  apply In_nth_error in Hin. destruct Hin as [j Hj].
  rewrite nth_error_firstn in Hj.
  destruct (j <? 10)%nat eqn:Hnear; [| discriminate Hj].
  apply Nat.ltb_lt in Hnear.
  assert (Hnodup : NoDup ids).
  { apply sorted_session_ids_perm in Hids.
    apply (Permutation_NoDup (Permutation_sym Hids)). exact Hwf. }
  assert (Heq : i = j).
  { apply (proj1 (NoDup_nth_error ids) Hnodup).
    - apply nth_error_Some. rewrite Hi. discriminate.
    - rewrite Hi, Hj. reflexivity. }
  lia.
Qed.

Lemma session_behind_window_not_listed_witness :
  ~ In "session_1" (map session_id (@nil ChatHistoryItem)).
Proof.
  apply (session_behind_window_not_listed crowded_sessions
           [ "session_11"; "session_10"; "session_9"; "session_8";
             "session_7"; "session_6"; "session_5"; "session_4";
             "session_3"; "session_2"; "session_1" ]
           [] 10 "session_1").
  - exact crowded_sessions_wf.
  - exact crowded_sessions_order.
  - exact crowded_sessions_listing.
  - reflexivity.
  - lia.
Defined.

(** X16: when the session at the head of the ranking has a first user
    message with some content, it is the first entry of the listing. *)
Theorem most_recent_conversation_first (s : sessions_t) (top : string)
  (others : list string) :
  sorted_session_ids s = ok (top :: others) ->
  has_first_user_text s top ->
  exists item rest,
    get_chat_history s = ok (item :: rest)
    /\ session_id item = top
    /\ summarises s item.
Proof.
  intros Hids Htext. apply listable_iff in Htext. unfold listable in Htext.
  destruct (summary s top) as [item |] eqn:Hsum; [| discriminate Htext].
  exists item, (entries s (firstn 9 others)).
  split.
  - rewrite (get_chat_history_of_ids s _ Hids).
    change (firstn 10 (top :: others)) with (top :: firstn 9 others).
    unfold entries. simpl. rewrite Hsum. reflexivity.
  - apply summary_summarises. exact Hsum.
Qed.

Lemma most_recent_conversation_first_witness :
  exists item rest,
    get_chat_history tied_sessions = ok (item :: rest)
    /\ session_id item = "session_2"
    /\ summarises tied_sessions item.
Proof.
  apply (most_recent_conversation_first tied_sessions "session_2"
           ["chat_2_copy"; "session_02"; "session_1"]).
  - vm_compute. reflexivity.
  - exists [msg "user" "second"], "second".
    split; [reflexivity |]. split; [| discriminate].
    exists [], (msg "user" "second"), [].
    repeat split; constructor.
Defined.

(** X17: a session without messages can be fetched, with an empty
    transcript and not as NotFound, although no listing ever shows it. *)
Theorem empty_session_fetched_not_listed (s : sessions_t) (sid : string) :
  dict_lookup s sid = Some [] ->
  get_chat_conversation s sid = ok (mkConversation sid [])
  /\ forall chats,
       get_chat_history s = ok chats -> ~ In sid (map session_id chats).
Proof.
  intros Hempty. split.
  - unfold get_chat_conversation, dict_contains, dict_get. rewrite Hempty.
    reflexivity.
  - intros chats H Hin. apply get_chat_history_ok in H.
    destruct H as (ids & _ & ->).
    rewrite entries_ids in Hin. apply filter_In in Hin.
    destruct Hin as [_ Hl]. unfold listable, summary in Hl.
    rewrite Hempty in Hl. discriminate Hl.
Qed.

Lemma empty_session_fetched_not_listed_witness :
  get_chat_conversation sample_sessions "session_2"
  = ok (mkConversation "session_2" [])
  /\ forall chats,
       get_chat_history sample_sessions = ok chats ->
       ~ In "session_2" (map session_id chats).
Proof.
  apply (empty_session_fetched_not_listed sample_sessions "session_2").
  reflexivity.
Defined.
